(** * scripts/optimize_ppocr_models.py: download and optimise the PP-OCR models

    A shallow embedding of the script and the properties its description
    states about it.

    The script is glue around three things it does not control: the network
    ([urllib.request.urlretrieve]), the format of the archives it downloads
    ([tarfile]) and an external command ([paddle_lite_opt], run through
    [os.system]).  Their answers are the fields of an environment [Env];
    every theorem holds for every environment.

    The local file system is a flat store: regular files are a finite map
    from path to content, directories a finite set of paths.  Paths are
    compared as strings (no normalisation of [.] and [..], no links), a
    path is below a directory when it extends the directory's path and a
    slash.  A file is created only in a directory that exists and under a
    name that can be a file's; removing a path that is not there raises, as
    it does in Python.  What the store does not tell apart is left out: two
    spellings of one path are two paths, a path can be recorded both as a
    file and as a directory, and making a directory always succeeds.  The
    properties that depend on it say so in their hypotheses.  An external
    command may leave files of its own; it removes nothing.  Console output
    and the calls that leave the process are recorded, in order, in a
    trace. *)

From stdpp Require Import gmap strings list.
From Stdlib Require Import Ascii String ZArith.
Local Open Scope string_scope.
Local Open Scope Z_scope.

(** ** Strings as Python uses them here *)

Module Str.

Definition newline : ascii := "010"%char.
Definition NL : string := String newline EmptyString.

(** [str.lower] and [str.upper], on the ASCII letters; no other character
    becomes a letter of the words the script compares with.  What Python
    makes of other characters is left out: for a version with such
    characters the title [main] prints is not the one computed here, and
    no property depends on it. *)
Definition lower_char (c : ascii) : ascii :=
  let n := nat_of_ascii c in
  if ((65 <=? n) && (n <=? 90))%nat then ascii_of_nat (n + 32) else c.

Definition upper_char (c : ascii) : ascii :=
  let n := nat_of_ascii c in
  if ((97 <=? n) && (n <=? 122))%nat then ascii_of_nat (n - 32) else c.

Fixpoint map_chars (f : ascii -> ascii) (s : string) : string :=
  match s with
  | EmptyString => EmptyString
  | String c s' => String (f c) (map_chars f s')
  end.

Definition lower : string -> string := map_chars lower_char.
Definition upper : string -> string := map_chars upper_char.

(** ['=' * 60] *)
Fixpoint repeat (s : string) (n : nat) : string :=
  match n with
  | O => EmptyString
  | S n' => s +:+ repeat s n'
  end.

(** [s.split(sep)] for a one-character separator: the pieces between the
    separators, never an empty list. *)
Fixpoint split (sep : ascii) (s : string) : list string :=
  match s with
  | EmptyString => [EmptyString]
  | String c s' =>
      if Ascii.eqb c sep then EmptyString :: split sep s'
      else match split sep s' with
           | piece :: pieces => String c piece :: pieces
           | [] => [String c EmptyString]
           end
  end.

(** [xs[-1]] on a list of strings that is never empty. *)
Definition last_piece (xs : list string) : string :=
  List.last xs EmptyString.

(** [s] without the prefix [p], when it starts with it. *)
Fixpoint strip_prefix (p s : string) : option string :=
  match p, s with
  | EmptyString, _ => Some s
  | String a p', String b s' => if Ascii.eqb a b then strip_prefix p' s' else None
  | String _ _, EmptyString => None
  end.

(** [s.startswith(p)] *)
Definition starts_with (p s : string) : bool :=
  match strip_prefix p s with
  | Some _ => true
  | None => false
  end.

Definition ends_with_slash (s : string) : bool :=
  match String.get (String.length s - 1) s with
  | Some c => Ascii.eqb c "/"%char
  | None => false
  end.

(** The part of a path up to its last slash, that slash included; empty
    when the path has no slash. *)
Fixpoint has_slash (s : string) : bool :=
  match s with
  | EmptyString => false
  | String c s' => Ascii.eqb c "/" || has_slash s'
  end.

Fixpoint head_of (p : string) : string :=
  match p with
  | EmptyString => EmptyString
  | String c p' => if (Ascii.eqb c "/" || has_slash p')%bool
                   then String c (head_of p') else EmptyString
  end.

(** [s[:-1]] *)
Fixpoint drop_last (s : string) : string :=
  match s with
  | EmptyString => EmptyString
  | String c EmptyString => EmptyString
  | String c s' => String c (drop_last s')
  end.

(** [for char in chars: f.write(f"{char}\n")]: what the loop writes. *)
Fixpoint lines_of_chars (s : string) : string :=
  match s with
  | EmptyString => EmptyString
  | String c s' => String c (NL +:+ lines_of_chars s')
  end.

Fixpoint chars (s : string) : list ascii :=
  match s with
  | EmptyString => []
  | String c s' => c :: chars s'
  end.

End Str.

(** ** [os.path.join] (posixpath) *)

Definition path_join (a b : string) : string :=
  if Str.starts_with "/" b then b
  else if (String.eqb a EmptyString || Str.ends_with_slash a)%bool then a +:+ b
  else a +:+ "/" +:+ b.

Definition path_join3 (a b c : string) : string := path_join (path_join a b) c.

(** ** The configuration table *)

Record config := Config {
  url : string;
  name : string;
  output : string;
  is_hf_repo : option bool   (* the v3 tables have no such key *)
}.

Definition cls_url : string :=
  "https://paddleocr.bj.bcebos.com/dygraph_v2.0/ch/ch_ppocr_mobile_v2.0_cls_infer.tar".

(** [MODELS], as the module body binds it for a value of [OCR_VERSION] and of
    [USE_HUGGINGFACE]; a dict in insertion order. *)
Definition MODELS (OCR_VERSION : string) (USE_HUGGINGFACE : bool)
  : list (string * config) :=
  if String.eqb OCR_VERSION "v5" then
    if USE_HUGGINGFACE then
      [ ("detection",
          Config "https://huggingface.co/PaddlePaddle/PP-OCRv5_mobile_det"
                 "PP-OCRv5_mobile_det" "ppocr_det_v5" (Some true));
        ("recognition",
          Config "https://huggingface.co/PaddlePaddle/PP-OCRv5_mobile_rec"
                 "PP-OCRv5_mobile_rec" "ppocr_rec_v5" (Some true));
        ("classifier",
          Config cls_url "ch_ppocr_mobile_v2.0_cls_infer" "ppocr_cls" (Some false)) ]
    else
      [ ("detection",
          Config "https://paddleocr.bj.bcebos.com/PP-OCRv5/chinese/ch_PP-OCRv5_det_infer.tar"
                 "ch_PP-OCRv5_det_infer" "ppocr_det_v5" (Some false));
        ("recognition",
          Config "https://paddleocr.bj.bcebos.com/PP-OCRv5/chinese/ch_PP-OCRv5_rec_infer.tar"
                 "ch_PP-OCRv5_rec_infer" "ppocr_rec_v5" (Some false));
        ("classifier",
          Config cls_url "ch_ppocr_mobile_v2.0_cls_infer" "ppocr_cls" (Some false)) ]
  else if String.eqb OCR_VERSION "v4" then
    if USE_HUGGINGFACE then
      [ ("detection",
          Config "https://huggingface.co/PaddlePaddle/PP-OCRv4_mobile_det"
                 "PP-OCRv4_mobile_det" "ppocr_det_v4" (Some true));
        ("recognition",
          Config "https://huggingface.co/PaddlePaddle/PP-OCRv4_mobile_rec"
                 "PP-OCRv4_mobile_rec" "ppocr_rec_v4" (Some true));
        ("classifier",
          Config cls_url "ch_ppocr_mobile_v2.0_cls_infer" "ppocr_cls" (Some false)) ]
    else
      [ ("detection",
          Config "https://paddleocr.bj.bcebos.com/PP-OCRv4/chinese/ch_PP-OCRv4_det_infer.tar"
                 "ch_PP-OCRv4_det_infer" "ppocr_det_v4" (Some false));
        ("recognition",
          Config "https://paddleocr.bj.bcebos.com/PP-OCRv4/chinese/ch_PP-OCRv4_rec_infer.tar"
                 "ch_PP-OCRv4_rec_infer" "ppocr_rec_v4" (Some false));
        ("classifier",
          Config cls_url "ch_ppocr_mobile_v2.0_cls_infer" "ppocr_cls" (Some false)) ]
  else
    if USE_HUGGINGFACE then
      [ ("detection",
          Config "https://huggingface.co/PaddlePaddle/ch_PP-OCRv3_det_infer/resolve/main/inference.tar"
                 "ch_PP-OCRv3_det_infer" "ppocr_det_v3" None);
        ("recognition",
          Config "https://huggingface.co/PaddlePaddle/ch_PP-OCRv3_rec_infer/resolve/main/inference.tar"
                 "ch_PP-OCRv3_rec_infer" "ppocr_rec_v3" None);
        ("classifier",
          Config cls_url "ch_ppocr_mobile_v2.0_cls_infer" "ppocr_cls" None) ]
    else
      [ ("detection",
          Config "https://paddleocr.bj.bcebos.com/PP-OCRv3/chinese/ch_PP-OCRv3_det_infer.tar"
                 "ch_PP-OCRv3_det_infer" "ppocr_det_v3" None);
        ("recognition",
          Config "https://paddleocr.bj.bcebos.com/PP-OCRv3/chinese/ch_PP-OCRv3_rec_infer.tar"
                 "ch_PP-OCRv3_rec_infer" "ppocr_rec_v3" None);
        ("classifier",
          Config cls_url "ch_ppocr_mobile_v2.0_cls_infer" "ppocr_cls" None) ].

(** [d[key]] and [d.get(key, default)] on such a dict. *)
Fixpoint dict_get {A} (key : string) (d : list (string * A)) : option A :=
  match d with
  | [] => None
  | (k, v) :: d' => if String.eqb k key then Some v else dict_get key d'
  end.

Definition dict_keys {A} (d : list (string * A)) : list string := List.map fst d.

(** ** The world outside and the world inside *)

(** A member of a tar archive. *)
Inductive entry :=
| TFile (content : string)
| TDir.

(** What the script cannot decide.  The answers do not change during a
    run. *)
Record Env := {
  (** [os.environ] *)
  environ : string -> option string;
  (** [urlretrieve(url, _)]: the bytes served, or the message of the error
      raised *)
  fetch : string -> string + string;
  (** [tarfile.open(_, 'r')] on a file of these bytes: its members in
      order, or [None] when the bytes are no archive *)
  tar_members : string -> option (list (string * entry));
  (** [os.system(cmd)] on a store of files: the status returned and the
      files the command leaves *)
  run : gmap string string -> string -> Z * list (string * string);
  (** [f"{size:.2f}"] for a size in bytes divided by [1024 * 1024] *)
  fmt_mb : nat -> string;
  (** [os.path.getsize] of a directory *)
  dir_size : string -> nat
}.

Inductive event :=
| Print (line : string)
| Urlretrieve (url dest : string)
| System (cmd : string).

Inductive exn :=
| URLError (msg : string)      (* raised by [urlretrieve] *)
| ReadError (path : string)    (* [tarfile.open] on what is no archive *)
| OSError (path : string)      (* a path that is not there, or cannot be a file *)
| ValueError (msg : string).   (* [tarfile.open] without a name *)

(** [str(e)] in the two handlers. *)
Definition exn_str (e : exn) : string :=
  match e with
  | URLError msg => msg
  | ReadError p => p
  | OSError p => p
  | ValueError msg => msg
  end.

Record World := {
  files : gmap string string;
  dirs : gset string;
  trace : list event
}.

Definition log (e : event) (w : World) : World :=
  {| files := files w; dirs := dirs w; trace := trace w ++ [e] |}.

Definition set_files (f : gmap string string) (w : World) : World :=
  {| files := f; dirs := dirs w; trace := trace w |}.

Definition set_dirs (d : gset string) (w : World) : World :=
  {| files := files w; dirs := d; trace := trace w |}.

(** How a piece of the script ends: it returns a value, an exception leaves
    it, or [sys.exit] was called. *)
Inductive Outcome (A : Type) :=
| Ret (a : A) (w : World)
| Raised (e : exn) (w : World)
| Exited (code : Z) (w : World).
Arguments Ret {A} a w.
Arguments Raised {A} e w.
Arguments Exited {A} code w.

Definition M (A : Type) : Type := World -> Outcome A.

Definition ret {A} (a : A) : M A := fun w => Ret a w.

Definition bind {A B} (m : M A) (k : A -> M B) : M B :=
  fun w => match m w with
           | Ret a w' => k a w'
           | Raised e w' => Raised e w'
           | Exited c w' => Exited c w'
           end.

Definition raise {A} (e : exn) : M A := fun w => Raised e w.

(** [try: m  except Exception as e: h e]; [SystemExit] is no [Exception]. *)
Definition try_except {A} (m : M A) (h : exn -> M A) : M A :=
  fun w => match m w with
           | Raised e w' => h e w'
           | o => o
           end.

Definition sys_exit {A} (code : Z) : M A := fun w => Exited code w.

Declare Scope script_scope.
Delimit Scope script_scope with script.
Notation "x <- m ;; k" := (bind m (fun x => k))
  (at level 100, m at next level, right associativity) : script_scope.
Notation "m ;; k" := (bind m (fun _ => k))
  (at level 100, right associativity) : script_scope.
Local Open Scope script_scope.

Definition outcome_world {A} (o : Outcome A) : World :=
  match o with
  | Ret _ w | Raised _ w | Exited _ w => w
  end.

(** The status the process ends with: 0 when the program runs to its end,
    the argument of [sys.exit], 1 for an exception nobody caught. *)
Definition exit_status {A} (o : Outcome A) : Z :=
  match o with
  | Ret _ _ => 0
  | Exited c _ => c
  | Raised _ _ => 1
  end.

(** [for x in xs: body x] *)
Fixpoint for_each {A} (xs : list A) (body : A -> M unit) : M unit :=
  match xs with
  | [] => ret tt
  | x :: xs' => body x ;; for_each xs' body
  end.

(** ** The library calls of the script *)

Definition print (line : string) : M unit := fun w => Ret tt (log (Print line) w).

Definition path_exists (p : string) (w : World) : bool :=
  bool_decide (is_Some (files w !! p)) || bool_decide (p ∈ dirs w).

(** [os.path.exists] *)
Definition os_path_exists (p : string) : M bool := fun w => Ret (path_exists p w) w.

(** [os.makedirs(p, exist_ok=True)]: the store is flat, [p] alone is
    recorded.  That Python raises when [p] is a regular file is left out;
    the properties that need the directory to be made assume that it can
    be. *)
Definition os_makedirs (p : string) : M unit :=
  fun w => Ret tt (set_dirs ({[p]} ∪ dirs w) w).

Definition write_file (p content : string) (w : World) : World :=
  set_files (<[p := content]> (files w)) w.

Definition write_files (l : list (string * string)) (w : World) : World :=
  fold_left (fun w' pc => write_file pc.1 pc.2 w') l w.

(** The directory a file at [p] is created in exists: the part of [p] up
    to its last slash is a directory of the store, recorded with or without
    that slash; the working directory and the root are always there. *)
Definition parent_exists (p : string) (w : World) : bool :=
  let h := Str.head_of p in
  String.eqb h EmptyString || String.eqb h "/"
  || bool_decide (h ∈ dirs w) || bool_decide (Str.drop_last h ∈ dirs w).

(** The last segment of [p] can be the name of a file: it is not empty and
    is neither [.] nor [..]. *)
Definition names_file (p : string) : bool :=
  let n := Str.last_piece (Str.split "/" p) in
  negb (String.eqb n EmptyString || String.eqb n "." || String.eqb n "..").

(** [open(p, 'w')] and [open(p, 'wb')]: whether the file can be created. *)
Definition can_create (p : string) (w : World) : bool :=
  names_file p && parent_exists p w.

(** [urllib.request.urlretrieve(url, dest)]: the address is opened first;
    without a file name what is served goes to a temporary file, outside
    the store. *)
Definition urlretrieve (E : Env) (url dest : string) : M unit :=
  fun w =>
    let w1 := log (Urlretrieve url dest) w in
    match fetch E url with
    | inl content =>
        if String.eqb dest EmptyString then Ret tt w1
        else if can_create dest w then Ret tt (write_file dest content w1)
        else Raised (OSError dest) w1
    | inr msg => Raised (URLError msg) w1
    end.

(** [os.path.getsize] *)
Definition os_path_getsize (E : Env) (p : string) : M nat :=
  fun w => match files w !! p with
           | Some content => Ret (String.length content) w
           | None => if bool_decide (p ∈ dirs w) then Ret (dir_size E p) w
                     else Raised (OSError p) w
           end.

(** [shutil.copy2(src, dst)] *)
Definition shutil_copy2 (src dst : string) : M unit :=
  fun w => match files w !! src with
           | Some content => Ret tt (write_file dst content w)
           | None => Raised (OSError src) w
           end.

(** [os.remove] *)
Definition os_remove (p : string) : M unit :=
  fun w => match files w !! p with
           | Some _ => Ret tt (set_files (delete p (files w)) w)
           | None => Raised (OSError p) w
           end.

(** [p] is the directory [d] or below it. *)
Definition within (d p : string) : bool :=
  String.eqb p d || Str.starts_with (d +:+ "/") p.

(** [shutil.rmtree] *)
Definition shutil_rmtree (d : string) : M unit :=
  fun w =>
    if bool_decide (d ∈ dirs w) then
      Ret tt {| files := filter (fun kv => within d kv.1 = false) (files w);
                dirs := filter (fun p => within d p = false) (dirs w);
                trace := trace w |}
    else Raised (OSError d) w.

Definition extract_entry (dest : string) (w : World) (m : string * entry) : World :=
  match m.2 with
  | TFile content => write_file (path_join dest m.1) content w
  | TDir => set_dirs ({[path_join dest m.1]} ∪ dirs w) w
  end.

Definition extract_all (dest : string) (members : list (string * entry)) (w : World)
  : World :=
  fold_left (extract_entry dest) members w.
Arguments extract_all : simpl never.

(** [with tarfile.open(filename, 'r') as tar: tar.extractall(dest)] *)
Definition tar_extractall (E : Env) (filename dest : string) : M unit :=
  fun w =>
    if String.eqb filename EmptyString then Raised (ValueError "nothing to open") w
    else match files w !! filename with
         | None => Raised (OSError filename) w
         | Some bytes =>
             match tar_members E bytes with
             | None => Raised (ReadError filename) w
             | Some members => Ret tt (extract_all dest members w)
             end
         end.

(** [os.system(cmd)] *)
Definition os_system (E : Env) (cmd : string) : M Z :=
  fun w =>
    let r := run E (files w) cmd in
    Ret r.1 (write_files r.2 (log (System cmd) w)).

(** [os.listdir]: the names directly below [d].  Python promises no order;
    here the files come first, in the order the store lists them. *)
Definition direct_child (d p : string) : option string :=
  match Str.strip_prefix (d +:+ "/") p with
  | Some rest =>
      match Str.split "/" rest with
      | [n] => if String.eqb n EmptyString then None else Some n
      | _ => None
      end
  | None => None
  end.

Definition os_listdir (d : string) : M (list string) :=
  fun w =>
    if bool_decide (d ∈ dirs w) then
      Ret (omap (direct_child d)
             (List.app (map_to_list (files w)).*1 (elements (dirs w)))) w
    else Raised (OSError d) w.

(** ** The script *)

Section Script.

Variable E : Env.

(** Lines 19 and 20. *)
Definition OCR_VERSION : string :=
  Str.lower (default "v3" (environ E "OCR_VERSION")).

Definition USE_HUGGINGFACE : bool :=
  String.eqb (Str.lower (default "false" (environ E "USE_HF"))) "true".

(** Lines 22 to 153: the banner printed while [MODELS] is bound. *)
Definition module_body : M unit :=
  if String.eqb OCR_VERSION "v5" then
    print "Using PP-OCRv5 models (latest, may have Paddle Lite compatibility issues)" ;;
    if USE_HUGGINGFACE then print "  Source: Hugging Face (direct download)"
    else print "  Source: Baidu BOS (legacy - use USE_HF=true for Hugging Face)"
  else if String.eqb OCR_VERSION "v4" then
    print "Using PP-OCRv4 models (better accuracy, from Hugging Face)" ;;
    if USE_HUGGINGFACE then print "  Source: Hugging Face (direct download)"
    else print "  Source: Baidu BOS (legacy - use USE_HF=true for Hugging Face)"
  else
    print "Using PP-OCRv3 models (stable, fully compatible with Paddle Lite)" ;;
    if USE_HUGGINGFACE then print "  Source: Hugging Face"
    else print "  Source: Baidu BOS (fastest)".

(** The files [download_hf_model] asks for. *)
Definition hf_files : list string := ["inference.pdiparams"; "inference.json"].

(** The body of the loop of [download_hf_model]. *)
Definition hf_fetch (base_url model_dir filename : string) : M unit :=
  let file_url := base_url +:+ "/" +:+ filename in
  let output_path := path_join model_dir filename in
  print ("  Downloading " +:+ filename +:+ "...") ;;
  try_except
    (urlretrieve E file_url output_path ;;
     size <- os_path_getsize E output_path ;;
     print ("  ✓ Downloaded " +:+ filename +:+ " (" +:+ fmt_mb E size +:+ " MB)"))
    (fun e =>
       print ("  ✗ Failed to download " +:+ filename +:+ ": " +:+ exn_str e) ;;
       raise e).

Definition download_hf_model (repo_url model_name extract_path : string) : M unit :=
  print ("Downloading from Hugging Face: " +:+ repo_url +:+ "...") ;;
  let model_dir := path_join extract_path model_name in
  os_makedirs model_dir ;;
  let base_url := repo_url +:+ "/resolve/main" in
  for_each hf_files (hf_fetch base_url model_dir) ;;
  let json_path := path_join model_dir "inference.json" in
  let model_path := path_join model_dir "inference.pdmodel" in
  present <- os_path_exists json_path ;;
  (if present : bool then
     shutil_copy2 json_path model_path ;;
     print "  ✓ Created inference.pdmodel from inference.json"
   else ret tt) ;;
  print ("✓ Downloaded model to " +:+ model_dir).

(** Line 192: [url.split('/')[-1]]. *)
Definition archive_name (url : string) : string :=
  Str.last_piece (Str.split "/" url).

Definition download_and_extract (url extract_path : string) : M unit :=
  print ("Downloading from " +:+ url +:+ "...") ;;
  let filename := archive_name url in
  urlretrieve E url filename ;;
  print ("Downloaded " +:+ filename) ;;
  print ("Extracting " +:+ filename +:+ "...") ;;
  tar_extractall E filename extract_path ;;
  os_remove filename ;;
  print ("Extracted to " +:+ extract_path).

(** The two naming conventions of [optimize_model]. *)
Definition primary_names (model_dir model_name : string) : string * string :=
  (path_join3 model_dir model_name "inference.pdmodel",
   path_join3 model_dir model_name "inference.pdiparams").

Definition legacy_names (model_dir model_name : string) : string * string :=
  (path_join3 model_dir model_name (model_name +:+ ".pdmodel"),
   path_join3 model_dir model_name (model_name +:+ ".pdiparams")).

(** Lines 210 to 216: the model file and the parameter file. *)
Definition model_files (model_dir model_name : string) : M (string * string) :=
  let '(model_file, param_file) := primary_names model_dir model_name in
  present <- os_path_exists model_file ;;
  if negb present then ret (legacy_names model_dir model_name)
  else ret (model_file, param_file).

(** Lines 230 to 238. *)
Definition optimizer_cmd (model_file param_file output_file : string) : string :=
  "paddle_lite_opt " +:+
  "--model_file=" +:+ model_file +:+ " " +:+
  "--param_file=" +:+ param_file +:+ " " +:+
  "--optimize_out=" +:+ output_file +:+ " " +:+
  "--valid_targets=arm " +:+
  "--optimize_out_type=naive_buffer " +:+
  "--enable_fp16=true".

Definition optimize_model (model_dir model_name output_name : string) : M bool :=
  names <- model_files model_dir model_name ;;
  let '(model_file, param_file) := names in
  let output_file := path_join "optimized_models" output_name in
  present <- os_path_exists model_file ;;
  if negb present then
    print ("Error: Model file not found: " +:+ model_file) ;;
    ret false
  else
    print (Str.NL +:+ "Optimizing " +:+ model_name +:+ "...") ;;
    print ("  Model: " +:+ model_file) ;;
    print ("  Params: " +:+ param_file) ;;
    print ("  Output: " +:+ output_file +:+ ".nb") ;;
    let cmd := optimizer_cmd model_file param_file output_file in
    result <- os_system E cmd ;;
    if Z.eqb result 0 then
      print ("✓ Successfully optimized to " +:+ output_file +:+ ".nb") ;;
      ret true
    else
      print ("✗ Failed to optimize " +:+ model_name) ;;
      ret false.

Definition dict_url : string :=
  "https://raw.githubusercontent.com/PaddlePaddle/PaddleOCR/main/ppocr/utils/dict/en_dict.txt".
Definition dict_file : string := "optimized_models/ppocr_keys_v1.txt".
Definition fallback_chars : string :=
  "abcdefghijklmnopqrstuvwxyzABCDEFGHIJKLMNOPQRSTUVWXYZ0123456789".

(** [with open(p, 'w') as f: for char in chars: f.write(f"{char}\n")] *)
Definition write_lines (p chars : string) : M unit :=
  fun w => if can_create p w then Ret tt (write_file p (Str.lines_of_chars chars) w)
           else Raised (OSError p) w.

Definition download_ppocr_dict : M unit :=
  print (Str.NL +:+ "Downloading dictionary file...") ;;
  try_except
    (urlretrieve E dict_url dict_file ;;
     print ("✓ Dictionary saved to " +:+ dict_file))
    (fun e =>
       print ("Warning: Could not download dictionary: " +:+ exn_str e) ;;
       print "Creating basic English dictionary..." ;;
       write_lines dict_file fallback_chars ;;
       print ("✓ Basic dictionary created at " +:+ dict_file)).

Definition probe_cmd : string := "paddle_lite_opt --help > /dev/null 2>&1".

Definition rule : string := Str.repeat "=" 60.

(** Lines 286 to 295 of the loop of [main]: the title and the download. *)
Definition obtain_model (item : string * config) : M unit :=
  let '(model_type, config) := item in
  print (Str.NL +:+ rule) ;;
  print ("Processing " +:+ Str.upper model_type +:+ " model") ;;
  print rule ;;
  let is_hf := default false (is_hf_repo config) in
  if is_hf then download_hf_model (url config) (name config) "downloads"
  else download_and_extract (url config) "downloads".

(** The body of the loop of [main]. *)
Definition process_model (item : string * config) : M unit :=
  obtain_model item ;;
  success <- optimize_model "downloads" (name item.2) (output item.2) ;;
  if negb success then
    print (Str.NL +:+ "✗ Failed to process " +:+ item.1 +:+ " model") ;;
    sys_exit 1
  else ret tt.

(** Lines 311 to 323. *)
Definition report : M unit :=
  print (Str.NL +:+ rule) ;;
  print "✓ All models optimized successfully!" ;;
  print rule ;;
  print (Str.NL +:+ "Optimized models are in: ./optimized_models/") ;;
  print (Str.NL +:+ "Next steps:") ;;
  print "1. Copy the .nb files to your Android project:" ;;
  print "   app/src/main/assets/models/" ;;
  print "2. Copy ppocr_keys_v1.txt to:" ;;
  print "   app/src/main/assets/" ;;
  print (Str.NL +:+ "Model files:") ;;
  listing <- os_listdir "optimized_models" ;;
  for_each listing (fun file =>
    size <- os_path_getsize E (path_join "optimized_models" file) ;;
    print ("  - " +:+ file +:+ " (" +:+ fmt_mb E size +:+ " MB)")).

(** Lines 270 to 282: the directories, the title and the probe of the
    optimizer. *)
Definition main_setup : M unit :=
  os_makedirs "downloads" ;;
  os_makedirs "optimized_models" ;;
  print rule ;;
  print ("PP-OCR Model Optimization for Android (" +:+ Str.upper OCR_VERSION +:+ ")") ;;
  print rule ;;
  status <- os_system E probe_cmd ;;
  if negb (Z.eqb status 0) then
    print (Str.NL +:+ "✗ Error: paddle_lite_opt not found!") ;;
    print "Please install it with: pip install paddlelite" ;;
    sys_exit 1
  else ret tt.

(** Lines 284 to 302. *)
Definition main_loop (models : list (string * config)) : M unit :=
  for_each models process_model.

(** [main], over the table it iterates. *)
Definition main_with (models : list (string * config)) : M unit :=
  main_setup ;;
  main_loop models ;;
  download_ppocr_dict ;;
  print (Str.NL +:+ "Cleaning up temporary files...") ;;
  shutil_rmtree "downloads" ;;
  report.

Definition main : M unit := main_with (MODELS OCR_VERSION USE_HUGGINGFACE).

(** The whole module, run as a script. *)
Definition script : M unit := module_body ;; main.

End Script.

(** ** What the properties speak of *)

Definition downloads_of (t : list event) : list (string * string) :=
  omap (fun e => match e with Urlretrieve u d => Some (u, d) | _ => None end) t.

Definition commands_of (t : list event) : list string :=
  omap (fun e => match e with System c => Some c | _ => None end) t.

Definition model_kinds : list string := ["detection"; "recognition"; "classifier"].

Definition well_formed (c : config) : Prop :=
  url c <> EmptyString /\ name c <> EmptyString /\ output c <> EmptyString.

(** The tag a value of the version variable stands for. *)
Definition version_tag (value : string) : string :=
  if String.eqb (Str.lower value) "v5" then "v5"
  else if String.eqb (Str.lower value) "v4" then "v4"
  else "v3".

Definition version_tags : list string := ["v3"; "v4"; "v5"].

(** The names [optimize_model] settles on in a world. *)
Definition chosen_names (model_dir model_name : string) (w : World) : string * string :=
  if path_exists (primary_names model_dir model_name).1 w
  then primary_names model_dir model_name
  else legacy_names model_dir model_name.

(** The messages before the optimizer runs. *)
Definition optimize_prints (model_name model_file param_file output_file : string)
  : list event :=
  [ Print (Str.NL +:+ "Optimizing " +:+ model_name +:+ "...");
    Print ("  Model: " +:+ model_file);
    Print ("  Params: " +:+ param_file);
    Print ("  Output: " +:+ output_file +:+ ".nb") ].

Definition in_range (lo hi : nat) (c : ascii) : bool :=
  ((lo <=? nat_of_ascii c) && (nat_of_ascii c <=? hi))%nat.

Definition is_lower : ascii -> bool := in_range 97 122.   (* a to z *)
Definition is_upper : ascii -> bool := in_range 65 90.    (* A to Z *)
Definition is_digit : ascii -> bool := in_range 48 57.    (* 0 to 9 *)
Definition is_alnum (c : ascii) : bool := is_lower c || is_upper c || is_digit c.

Definition one_char (c : ascii) : string := String c EmptyString.

(** The address [download_hf_model] asks a file of a repository from. *)
Definition hf_url (repo_url filename : string) : string :=
  (repo_url +:+ "/resolve/main") +:+ "/" +:+ filename.

Definition fetch_fails (E : Env) (repo_url filename : string) : Prop :=
  exists msg, fetch E (hf_url repo_url filename) = inr msg.

(** A piece of the script that removes no directory, however it ends. *)
Definition keeps_dirs {A} (m : M A) : Prop :=
  forall w, dirs w ⊆ dirs (outcome_world (m w)).

(** Two worlds with the same files and directories. *)
Definition same_store (w1 w2 : World) : Prop :=
  files w1 = files w2 /\ dirs w1 = dirs w2.

(** What [os.path.join] puts before a name that is not absolute. *)
Definition join_prefix (d : string) : string :=
  if (String.eqb d EmptyString || Str.ends_with_slash d)%bool then d else d +:+ "/".

(** A name [os.path.join] appends, as against one it restarts from. *)
Definition relative (x : string) : Prop := Str.starts_with "/" x = false.

(** A piece of the script that, however it ends, leaves a world related
    by [R] to the one it started in. *)
Definition respects (R : relation World) {A} (m : M A) : Prop :=
  forall w, R w (outcome_world (m w)).

(** The trace of the second world continues the trace of the first. *)
Definition trace_grows : relation World :=
  fun w w' => trace w `prefix_of` trace w'.

(** The second world's trace holds the commands of the first's, and no
    other. *)
Definition commands_kept : relation World :=
  fun w w' => commands_of (trace w') = commands_of (trace w).

(** Nothing at or below the staging directory is a regular file, and the
    name of the output directory is not taken by one: [main] can make its
    two directories. *)
Definition fresh_start (w : World) : Prop :=
  (forall p, within "downloads" p = true -> files w !! p = None) /\
  files w !! "optimized_models" = None.

(** A piece of the script that calls [sys.exit], if at all, with [code]. *)
Definition exits_only_with (code : Z) {A} (m : M A) : Prop :=
  forall w c w', m w = Exited c w' -> c = code.

(** What every run of [main] starts with: the title and the probe. *)
Definition main_opening (E : Env) : list event :=
  [ Print rule;
    Print ("PP-OCR Model Optimization for Android (" +:+ Str.upper (OCR_VERSION E) +:+ ")");
    Print rule;
    System probe_cmd ].

(** A name the loop of [download_hf_model] can save a file under. *)
Definition plain_name (f : string) : Prop :=
  Str.has_slash f = false /\ names_file f = true.

(** A path of plain segments: relative, and with no segment that is empty,
    [.] or [..]; two such paths are one file only when they are one string. *)
Definition plain_segment (n : string) : bool :=
  negb (String.eqb n EmptyString || String.eqb n "." || String.eqb n "..").

Definition plain_path (p : string) : bool :=
  forallb plain_segment (Str.split "/" p).

(** An archive whose members can all be unpacked under [dest]: every name
    is listed once, every member goes to a path of plain segments that is
    neither the archive file nor below it, and no member goes below a
    member that is a file. *)
Definition well_formed_archive (dest archive : string)
    (members : list (string * entry)) : bool :=
  bool_decide (NoDup members.*1)
  && forallb (fun m => plain_path (path_join dest m.1)
                       && negb (within archive (path_join dest m.1))) members
  && forallb (fun m1 =>
                match m1.2 with
                | TFile _ =>
                    forallb (fun m2 => String.eqb m1.1 m2.1
                                       || negb (within (path_join dest m1.1)
                                                  (path_join dest m2.1))) members
                | TDir => true
                end) members.

(** What the store holds for a member after the archive was unpacked. *)
Definition unpacked (dest : string) (w : World) (m : string * entry) : Prop :=
  match m.2 with
  | TFile content => files w !! path_join dest m.1 = Some content
  | TDir => path_join dest m.1 ∈ dirs w
  end.

(** ** Sample environments and worlds *)

(** An environment in which only the version variable is set. *)
Definition env_with_version (value : string) : Env :=
  {| environ := fun k => if String.eqb k "OCR_VERSION" then Some value else None;
     fetch := fun _ => inr "offline";
     tar_members := fun _ => None;
     run := fun _ _ => (0, []);
     fmt_mb := fun _ => "0.00";
     dir_size := fun _ => 0%nat |}.

Definition empty_world : World := {| files := ∅; dirs := ∅; trace := [] |}.

(** A world with the two directories [main] makes, and nothing else. *)
Definition world_with_output_dir : World :=
  {| files := ∅; dirs := {["downloads"; "optimized_models"]}; trace := [] |}.

(** An environment without the optimizer: every command returns 127. *)
Definition env_no_optimizer : Env :=
  {| environ := fun _ => None;
     fetch := fun _ => inl "bytes";
     tar_members := fun _ => Some [];
     run := fun _ _ => (127, []);
     fmt_mb := fun _ => "0.00";
     dir_size := fun _ => 0%nat |}.

(** An environment without a network. *)
Definition env_offline : Env :=
  {| environ := fun _ => None;
     fetch := fun _ => inr "offline";
     tar_members := fun _ => None;
     run := fun _ _ => (0, []);
     fmt_mb := fun _ => "0.00";
     dir_size := fun _ => 0%nat |}.

(** An environment in which the optimizer is installed and every archive
    served is empty. *)
Definition env_empty_archives : Env :=
  {| environ := fun _ => None;
     fetch := fun _ => inl "bytes";
     tar_members := fun _ => Some [];
     run := fun _ _ => (0, []);
     fmt_mb := fun _ => "0.00";
     dir_size := fun _ => 0%nat |}.

(** An environment in which everything works: the archives hold the model
    and the parameters under the primary names, the optimizer writes its
    output and returns 0. *)
Definition env_all_well : Env :=
  {| environ := fun _ => None;
     fetch := fun _ => inl "bytes";
     tar_members := fun _ =>
       Some [ ("ch_PP-OCRv3_det_infer", TDir);
              ("ch_PP-OCRv3_det_infer/inference.pdmodel", TFile "graph");
              ("ch_PP-OCRv3_det_infer/inference.pdiparams", TFile "weights");
              ("ch_PP-OCRv3_rec_infer/inference.pdmodel", TFile "graph");
              ("ch_PP-OCRv3_rec_infer/inference.pdiparams", TFile "weights");
              ("ch_ppocr_mobile_v2.0_cls_infer/inference.pdmodel", TFile "graph");
              ("ch_ppocr_mobile_v2.0_cls_infer/inference.pdiparams", TFile "weights") ];
     run := fun _ _ => (0, [("optimized_models/model.nb", "nb")]);
     fmt_mb := fun _ => "0.00";
     dir_size := fun _ => 0%nat |}.

(** The first model of the default table. *)
Definition detection_v3 : string * config :=
  ("detection",
    Config "https://paddleocr.bj.bcebos.com/PP-OCRv3/chinese/ch_PP-OCRv3_det_infer.tar"
           "ch_PP-OCRv3_det_infer" "ppocr_det_v3" None).

Definition after_detection_v3 : list (string * config) :=
  [ ("recognition",
      Config "https://paddleocr.bj.bcebos.com/PP-OCRv3/chinese/ch_PP-OCRv3_rec_infer.tar"
             "ch_PP-OCRv3_rec_infer" "ppocr_rec_v3" None);
    ("classifier",
      Config cls_url "ch_ppocr_mobile_v2.0_cls_infer" "ppocr_cls" None) ].

(** The world in which the first model has been downloaded, the archive
    having been empty. *)
Definition world_after_empty_archive : World :=
  outcome_world
    ((main_setup env_empty_archives ;; main_loop env_empty_archives [] ;;
      obtain_model env_empty_archives detection_v3) empty_world).

(** A world in which a model directory holds the model file under the
    legacy name only. *)
Definition world_legacy_only : World :=
  write_file "downloads/det/det.pdmodel" "graph" empty_world.

Definition det_url : string :=
  "https://paddleocr.bj.bcebos.com/PP-OCRv3/chinese/ch_PP-OCRv3_det_infer.tar".

Definition world_after_extract : World :=
  outcome_world (download_and_extract env_all_well det_url "downloads" empty_world).


(** A world in which a model directory holds the model file and no
    parameter file. *)
Definition world_no_params : World :=
  write_file "downloads/det/inference.pdmodel" "graph" empty_world.

Definition det_repo : string := "https://huggingface.co/PaddlePaddle/PP-OCRv5_mobile_det".

(** An environment in which a repository serves its parameters and has no
    [inference.json]. *)
Definition env_no_json : Env :=
  {| environ := fun _ => None;
     fetch := fun u => if String.eqb u (hf_url det_repo "inference.json")
                       then inr "HTTP Error 404: Not Found" else inl "weights";
     tar_members := fun _ => None;
     run := fun _ _ => (0, []);
     fmt_mb := fun _ => "0.00";
     dir_size := fun _ => 0%nat |}.

(** An environment in which the optimizer is installed and fails on every
    model. *)
Definition env_optimizer_fails : Env :=
  {| environ := fun _ => None;
     fetch := fun _ => inl "bytes";
     tar_members := fun _ =>
       Some [("ch_PP-OCRv3_det_infer/inference.pdmodel", TFile "graph")];
     run := fun _ cmd => (if String.eqb cmd probe_cmd then 0 else 256, []);
     fmt_mb := fun _ => "0.00";
     dir_size := fun _ => 0%nat |}.

Definition world_before_failed_optimizer : World :=
  outcome_world
    ((main_setup env_optimizer_fails ;; main_loop env_optimizer_fails [] ;;
      obtain_model env_optimizer_fails detection_v3) empty_world).

Definition world_after_setup_offline : World :=
  outcome_world ((main_setup env_offline ;; main_loop env_offline []) empty_world).

(** ** Facts about strings *)

Lemma string_app_assoc (a b c : string) : (a +:+ b) +:+ c = a +:+ b +:+ c.
Proof.
  induction a as [| x a IH]; [reflexivity |].
  change (String x ((a +:+ b) +:+ c) = String x (a +:+ b +:+ c)).
  rewrite IH. reflexivity.
Qed.

Lemma strip_prefix_app p s rest :
  Str.strip_prefix p s = Some rest -> s = p +:+ rest.
Proof.
  revert s. induction p as [| a p IH]; intros s H.
  { destruct s; injection H as <-; reflexivity. }
  destruct s as [| b s]; [done |]. simpl in H.
  destruct (Ascii.eqb_spec a b) as [-> | _]; [| done].
  change (String b s = String b (p +:+ rest)). f_equal. by apply IH.
Qed.

Lemma split_not_nil sep s : Str.split sep s <> [].
Proof.
  destruct s as [| c s]; simpl; [done |].
  destruct (Ascii.eqb c sep); [done |]. by destruct (Str.split sep s).
Qed.

Lemma split_single sep s n :
  Str.split sep s = [n] -> s = n /\ Str.starts_with (String sep EmptyString) n = false.
Proof.
  revert n. induction s as [| c s IH]; intros n H; simpl in H.
  { by injection H as <-. }
  destruct (Ascii.eqb_spec c sep) as [-> | Hne].
  { injection H as _ H. by apply split_not_nil in H. }
  destruct (Str.split sep s) as [| piece pieces] eqn:Hs.
  { by apply split_not_nil in Hs. }
  injection H as <- ->. destruct (IH piece eq_refl) as [-> _].
  split; [done |]. unfold Str.starts_with. simpl.
  destruct (Ascii.eqb_spec sep c) as [-> | _]; done.
Qed.

Lemma path_join_relative d x :
  relative x -> path_join d x = join_prefix d +:+ x.
Proof.
  unfold relative, path_join, join_prefix. intros ->.
  destruct (_ || _)%bool; [done |]. by rewrite string_app_assoc.
Qed.

Lemma path_join_inj d x y :
  relative x -> relative y -> path_join d x = path_join d y -> x = y.
Proof.
  intros Hx Hy. rewrite !path_join_relative by done.
  apply strings.String.app_inj.
Qed.

Lemma last_cons_cons {A} (x y : A) l d : List.last (x :: y :: l) d = List.last (y :: l) d.
Proof. reflexivity. Qed.

Lemma split_without sep s :
  sep ∉ Str.chars s -> Str.split sep s = [s].
Proof.
  induction s as [| c s IH]; intros Hno; [done |].
  simpl in *. apply not_elem_of_cons in Hno as [Hne Hno].
  destruct (Ascii.eqb_spec c sep) as [-> | _]; [done |].
  by rewrite (IH Hno).
Qed.

Lemma split_last sep s :
  (sep ∉ Str.chars (Str.last_piece (Str.split sep s))) /\
  exists before,
    s = before +:+ Str.last_piece (Str.split sep s) /\
    (before = EmptyString \/ exists dir, before = dir +:+ String sep EmptyString).
Proof.
  unfold Str.last_piece. induction s as [| c s [IHno (before & IHeq & IHbefore)]].
  { split; [simpl; apply not_elem_of_nil |]. exists EmptyString. by split; [| left]. }
  simpl. destruct (Ascii.eqb_spec c sep) as [-> | Hne].
  - destruct (Str.split sep s) as [| piece pieces] eqn:Hsplit.
    { by apply split_not_nil in Hsplit. }
    rewrite last_cons_cons. split; [done |].
    exists (String sep before). split.
    + change (String sep s = String sep (before +:+ List.last (piece :: pieces) EmptyString)).
      by f_equal.
    + right. destruct IHbefore as [-> | [dir ->]].
      * by exists EmptyString.
      * by exists (String sep dir).
  - destruct (Str.split sep s) as [| piece [| piece' pieces]] eqn:Hsplit.
    { by apply split_not_nil in Hsplit. }
    + simpl in *. split.
      { intros Hin. apply elem_of_cons in Hin as [Heq | Hin]; [by subst | done]. }
      exists EmptyString. split; [| by left].
      apply split_single in Hsplit as [-> _]. reflexivity.
    + rewrite last_cons_cons. rewrite last_cons_cons in IHno, IHeq.
      split; [done |].
      exists (String c before). split.
      * change (String c s
                = String c (before +:+ List.last (piece' :: pieces) EmptyString)).
        by f_equal.
      * right. destruct IHbefore as [-> | [dir ->]].
        -- exfalso.
           change (s = List.last (piece' :: pieces) EmptyString) in IHeq.
           rewrite <- IHeq in IHno.
           by rewrite (split_without sep s IHno) in Hsplit.
        -- by exists (String c dir).
Qed.

Lemma split_two sep a b :
  exists p q l, Str.split sep (a +:+ String sep b) = p :: q :: l.
Proof.
  induction a as [| c a (p & q & l & IH)].
  - change (EmptyString +:+ String sep b) with (String sep b). simpl.
    rewrite Ascii.eqb_refl.
    destruct (Str.split sep b) as [| q l] eqn:Hsplit; [by apply split_not_nil in Hsplit |].
    by exists EmptyString, q, l.
  - change (String c a +:+ String sep b) with (String c (a +:+ String sep b)).
    simpl. rewrite IH. destruct (Ascii.eqb c sep); eauto.
Qed.

Lemma split_last_app sep a b :
  sep ∉ Str.chars b ->
  Str.last_piece (Str.split sep (a +:+ String sep b)) = b.
Proof.
  intros Hno. unfold Str.last_piece. induction a as [| c a IH].
  - change (EmptyString +:+ String sep b) with (String sep b). simpl.
    rewrite Ascii.eqb_refl, (split_without sep b Hno). reflexivity.
  - change (String c a +:+ String sep b) with (String c (a +:+ String sep b)).
    destruct (split_two sep a b) as (p & q & l & Hsplit).
    simpl. rewrite Hsplit in *. destruct (Ascii.eqb c sep).
    + by rewrite last_cons_cons.
    + by rewrite last_cons_cons in *.
Qed.

Lemma has_slash_chars s : Str.has_slash s = false <-> "/"%char ∉ Str.chars s.
Proof.
  induction s as [| c s IH]; simpl.
  - split; [intros _; apply not_elem_of_nil | done].
  - rewrite orb_false_iff, not_elem_of_cons, IH.
    destruct (Ascii.eqb_spec c "/") as [-> | Hne]; split; intros [? ?]; done.
Qed.

Lemma has_slash_relative s : Str.has_slash s = false -> relative s.
Proof.
  unfold relative, Str.starts_with. destruct s as [| c s]; [done |].
  cbn [Str.has_slash Str.strip_prefix].
  intros H. apply orb_false_iff in H as [Hc _].
  by rewrite Ascii.eqb_sym, Hc.
Qed.

Lemma head_of_no_slash s : Str.has_slash s = false -> Str.head_of s = EmptyString.
Proof.
  destruct s as [| c s]; [done |]. cbn [Str.has_slash Str.head_of]. by intros ->.
Qed.

Lemma has_slash_app_slash a f : Str.has_slash ((a +:+ "/") +:+ f) = true.
Proof.
  induction a as [| c a IH].
  - reflexivity.
  - change ((String c a +:+ "/") +:+ f) with (String c ((a +:+ "/") +:+ f)).
    cbn [Str.has_slash]. rewrite IH. apply orb_true_r.
Qed.

Lemma head_of_app_slash a f :
  Str.has_slash f = false -> Str.head_of ((a +:+ "/") +:+ f) = a +:+ "/".
Proof.
  intros Hf. induction a as [| c a IH].
  - change ((EmptyString +:+ "/") +:+ f) with (String "/" f).
    cbn [Str.head_of]. rewrite Ascii.eqb_refl. cbn [orb].
    by rewrite (head_of_no_slash f Hf).
  - change ((String c a +:+ "/") +:+ f) with (String c ((a +:+ "/") +:+ f)).
    cbn [Str.head_of]. rewrite has_slash_app_slash, orb_true_r, IH. reflexivity.
Qed.

Lemma drop_last_app_slash a : Str.drop_last (a +:+ "/") = a.
Proof.
  induction a as [| c a IH]; [reflexivity |].
  change (String c a +:+ "/") with (String c (a +:+ "/")). simpl.
  rewrite IH. by destruct a.
Qed.

Lemma ends_with_slash_cons c s :
  Str.ends_with_slash (String c s)
  = match s with
    | EmptyString => Ascii.eqb c "/"
    | String _ _ => Str.ends_with_slash s
    end.
Proof.
  unfold Str.ends_with_slash. destruct s as [| c' s]; [reflexivity |].
  simpl. by rewrite Nat.sub_0_r.
Qed.

Lemma ends_with_slash_app s :
  Str.ends_with_slash s = true -> exists a, s = a +:+ "/".
Proof.
  induction s as [| c s IH]; [done |].
  rewrite ends_with_slash_cons. destruct s as [| c' s].
  - intros H. apply Ascii.eqb_eq in H as ->. by exists EmptyString.
  - intros H. destruct (IH H) as [a ->]. by exists (String c a).
Qed.

(** ** Facts about the library calls *)

Lemma write_files_trace l w : trace (write_files l w) = trace w.
Proof. revert w; induction l as [| pc l IH]; intros w; [done |]. simpl. by rewrite IH. Qed.

Lemma write_files_dirs l w : dirs (write_files l w) = dirs w.
Proof. revert w; induction l as [| pc l IH]; intros w; [done |]. simpl. by rewrite IH. Qed.

Lemma names_file_no_slash f :
  Str.has_slash f = false -> names_file f = negb (String.eqb f EmptyString
                                                   || String.eqb f "." || String.eqb f "..").
Proof.
  intros Hf. unfold names_file.
  by rewrite (split_without "/" f (proj1 (has_slash_chars f) Hf)).
Qed.

Lemma names_file_app_slash a f :
  Str.has_slash f = false -> names_file ((a +:+ "/") +:+ f) = names_file f.
Proof.
  intros Hf. rewrite (names_file_no_slash f Hf). unfold names_file.
  rewrite string_app_assoc.
  change ("/" +:+ f) with (String "/" f).
  by rewrite (split_last_app "/" a f (proj1 (has_slash_chars f) Hf)).
Qed.

(** A file with a plain name can be created in a directory of the store,
    under the path [os.path.join] gives it. *)
Lemma can_create_path_join d f w :
  Str.has_slash f = false -> names_file f = true -> d ∈ dirs w ->
  can_create (path_join d f) w = true.
Proof.
  intros Hf Hname Hd. unfold can_create.
  rewrite (path_join_relative d f (has_slash_relative f Hf)).
  unfold join_prefix, parent_exists.
  destruct (String.eqb_spec d EmptyString) as [-> | Hne]; cbn [orb].
  { change (EmptyString +:+ f) with f.
    rewrite Hname, (head_of_no_slash f Hf). reflexivity. }
  destruct (Str.ends_with_slash d) eqn:Hslash.
  - destruct (ends_with_slash_app d Hslash) as [a ->].
    rewrite (names_file_app_slash a f Hf), Hname, (head_of_app_slash a f Hf).
    rewrite (bool_decide_eq_true_2 _ Hd). cbn [andb]. by rewrite !orb_true_r.
  - rewrite (names_file_app_slash d f Hf), Hname, (head_of_app_slash d f Hf).
    rewrite drop_last_app_slash, (bool_decide_eq_true_2 _ Hd).
    cbn [andb]. by rewrite !orb_true_r.
Qed.

(** So can a file with a usable name that has no slash, in the working
    directory. *)
Lemma can_create_here f w :
  Str.has_slash f = false -> names_file f = true -> can_create f w = true.
Proof.
  intros Hf Hname. unfold can_create, parent_exists.
  by rewrite Hname, (head_of_no_slash f Hf).
Qed.

Lemma archive_name_no_slash url : Str.has_slash (archive_name url) = false.
Proof. apply has_slash_chars. unfold archive_name. apply split_last. Qed.

Lemma can_create_dict_file w :
  "optimized_models" ∈ dirs w -> can_create dict_file w = true.
Proof.
  intros Hdir. unfold can_create, parent_exists.
  change (names_file dict_file) with true.
  change (Str.head_of dict_file) with "optimized_models/".
  change (Str.drop_last "optimized_models/") with "optimized_models".
  rewrite (bool_decide_eq_true_2 _ Hdir). cbn [andb]. by rewrite !orb_true_r.
Qed.

Lemma path_join_not_empty d f :
  plain_name f -> String.eqb (path_join d f) EmptyString = false.
Proof.
  intros [Hf Hname]. rewrite (path_join_relative d f (has_slash_relative f Hf)).
  apply String.eqb_neq. intros Hempty.
  destruct (join_prefix d); [| done].
  change (EmptyString +:+ f) with f in Hempty. by subst f.
Qed.

Lemma commands_of_app t1 t2 : commands_of (t1 ++ t2) = (commands_of t1 ++ commands_of t2)%list.
Proof. apply omap_app. Qed.

Lemma extract_all_cons dest m members w :
  extract_all dest (m :: members) w = extract_all dest members (extract_entry dest w m).
Proof. reflexivity. Qed.

Lemma extract_all_dirs dest members w : dirs w ⊆ dirs (extract_all dest members w).
Proof.
  revert w. induction members as [| m members IH]; intros w; [done |].
  rewrite extract_all_cons. etrans; [| apply IH].
  unfold extract_entry. destruct m.2; simpl; set_solver.
Qed.

Lemma rmtree_removes d w :
  d ∈ dirs w ->
  exists w',
    shutil_rmtree d w = Ret tt w' /\
    trace w' = trace w /\
    (forall p, within d p = true -> path_exists p w' = false) /\
    (forall p, within d p = false -> p ∈ dirs w -> p ∈ dirs w').
Proof.
  intros Hd. unfold shutil_rmtree. rewrite bool_decide_eq_true_2 by done.
  eexists. split; [reflexivity |]. split; [reflexivity |]. split.
  - intros p Hp. unfold path_exists. simpl. apply orb_false_iff. split.
    + apply bool_decide_eq_false. intros [content Hlook].
      apply map_lookup_filter_Some in Hlook as [_ Hout]. simpl in Hout. congruence.
    + apply bool_decide_eq_false. intros Hin.
      apply elem_of_filter in Hin as [Hout _]. congruence.
  - intros p Hp Hin. simpl. by apply elem_of_filter.
Qed.

Lemma direct_child_join d p n :
  (String.eqb d EmptyString || Str.ends_with_slash d)%bool = false ->
  direct_child d p = Some n -> path_join d n = p.
Proof.
  intros Hd. unfold direct_child.
  destruct (Str.strip_prefix (d +:+ "/") p) as [rest |] eqn:Hrest; [| done].
  apply strip_prefix_app in Hrest as ->.
  destruct (Str.split "/" rest) as [| n' [| ? ?]] eqn:Hsplit; [done | | done].
  destruct (String.eqb n' EmptyString); [done |]. intros [= ->].
  apply split_single in Hsplit as [-> Hslash].
  unfold path_join. rewrite Hslash, Hd. by rewrite string_app_assoc.
Qed.

Lemma listed_exists d w f :
  (String.eqb d EmptyString || Str.ends_with_slash d)%bool = false ->
  f ∈ omap (direct_child d) (List.app (map_to_list (files w)).*1 (elements (dirs w))) ->
  path_exists (path_join d f) w = true.
Proof.
  intros Hd Hin. apply list_elem_of_omap in Hin as (p & Hp & Hchild).
  rewrite (direct_child_join d p f Hd Hchild).
  unfold path_exists. apply orb_true_iff.
  apply elem_of_app in Hp as [Hp | Hp].
  - left. apply bool_decide_eq_true.
    apply list_elem_of_fmap in Hp as ([k v] & -> & Hkv).
    apply elem_of_map_to_list in Hkv. simpl. eauto.
  - right. apply bool_decide_eq_true. by apply elem_of_elements in Hp.
Qed.

(** ** Running a sequence *)

Lemma bind_Ret {A B} (m : M A) (k : A -> M B) w a w1 :
  m w = Ret a w1 -> bind m k w = k a w1.
Proof. unfold bind. by intros ->. Qed.

Lemma bind_Ret_inv {A B} (m : M A) (k : A -> M B) w b w' :
  bind m k w = Ret b w' -> exists a w1, m w = Ret a w1 /\ k a w1 = Ret b w'.
Proof. unfold bind. destruct (m w) as [a w1 | |]; [eauto | done | done]. Qed.

Lemma for_each_app {A} (xs ys : list A) (body : A -> M unit) w :
  for_each (xs ++ ys) body w = bind (for_each xs body) (fun _ => for_each ys body) w.
Proof.
  revert w. induction xs as [| x xs IH]; intros w; [done |].
  simpl. unfold bind. destruct (body x w) as [[] w1 | |]; [| done | done].
  rewrite IH. reflexivity.
Qed.

(** ** Directories stay until they are removed *)

Create HintDb keeps discriminated.

Lemma keeps_dirs_ret {A} (a : A) : keeps_dirs (ret a).
Proof. intros w. done. Qed.

Lemma keeps_dirs_raise {A} e : keeps_dirs (@raise A e).
Proof. intros w. done. Qed.

Lemma keeps_dirs_sys_exit {A} c : keeps_dirs (@sys_exit A c).
Proof. intros w. done. Qed.

Lemma keeps_dirs_bind {A B} (m : M A) (k : A -> M B) :
  keeps_dirs m -> (forall a, keeps_dirs (k a)) -> keeps_dirs (bind m k).
Proof.
  intros Hm Hk w. unfold bind. specialize (Hm w).
  destruct (m w) as [a w1 | e w1 | c w1]; simpl in *; [| done | done].
  specialize (Hk a w1). set_solver.
Qed.

Lemma keeps_dirs_try_except {A} (m : M A) (h : exn -> M A) :
  keeps_dirs m -> (forall e, keeps_dirs (h e)) -> keeps_dirs (try_except m h).
Proof.
  intros Hm Hh w. unfold try_except. specialize (Hm w).
  destruct (m w) as [a w1 | e w1 | c w1]; simpl in *; [done | | done].
  specialize (Hh e w1). set_solver.
Qed.

Lemma keeps_dirs_for_each {A} (xs : list A) (body : A -> M unit) :
  (forall x, keeps_dirs (body x)) -> keeps_dirs (for_each xs body).
Proof.
  intros Hbody. induction xs as [| x xs IH]; simpl.
  - apply keeps_dirs_ret.
  - apply keeps_dirs_bind; [apply Hbody | intros _; apply IH].
Qed.

Lemma keeps_dirs_print line : keeps_dirs (print line).
Proof. intros w. done. Qed.

Lemma keeps_dirs_os_path_exists p : keeps_dirs (os_path_exists p).
Proof. intros w. done. Qed.

Lemma keeps_dirs_os_makedirs p : keeps_dirs (os_makedirs p).
Proof. intros w. simpl. set_solver. Qed.

Lemma keeps_dirs_urlretrieve E u d : keeps_dirs (urlretrieve E u d).
Proof. intros w. unfold urlretrieve. by repeat case_match. Qed.

Lemma keeps_dirs_os_path_getsize E p : keeps_dirs (os_path_getsize E p).
Proof.
  intros w. unfold os_path_getsize.
  destruct (files w !! p); [done |]. by destruct (bool_decide _).
Qed.

Lemma keeps_dirs_shutil_copy2 a b : keeps_dirs (shutil_copy2 a b).
Proof. intros w. unfold shutil_copy2. by destruct (files w !! a). Qed.

Lemma keeps_dirs_os_remove p : keeps_dirs (os_remove p).
Proof. intros w. unfold os_remove. by destruct (files w !! p). Qed.

Lemma keeps_dirs_tar_extractall E f d : keeps_dirs (tar_extractall E f d).
Proof.
  intros w. unfold tar_extractall. repeat case_match; try done.
  apply extract_all_dirs.
Qed.

Lemma keeps_dirs_os_system E cmd : keeps_dirs (os_system E cmd).
Proof. intros w. unfold os_system. simpl. by rewrite write_files_dirs. Qed.

Lemma keeps_dirs_write_lines p chars : keeps_dirs (write_lines p chars).
Proof. intros w. unfold write_lines. by case_match. Qed.

#[local] Hint Resolve keeps_dirs_ret keeps_dirs_raise keeps_dirs_sys_exit
  keeps_dirs_print keeps_dirs_os_path_exists keeps_dirs_os_makedirs
  keeps_dirs_urlretrieve keeps_dirs_os_path_getsize keeps_dirs_shutil_copy2
  keeps_dirs_os_remove keeps_dirs_tar_extractall keeps_dirs_os_system
  keeps_dirs_write_lines : keeps.

(** Walks through a piece of the script, one call at a time. *)
Ltac keeps_step :=
  first
    [ apply keeps_dirs_bind; [| intros ?]
    | apply keeps_dirs_try_except; [| intros ?]
    | apply keeps_dirs_for_each; intros ?
    | match goal with
      | |- keeps_dirs (if ?b then _ else _) => destruct b
      | |- keeps_dirs (let '(_, _) := ?p in _) => destruct p
      end
    | solve [auto with keeps] ].

Ltac keeps_walk := repeat keeps_step.

Lemma keeps_dirs_hf_fetch E base_url model_dir filename :
  keeps_dirs (hf_fetch E base_url model_dir filename).
Proof. unfold hf_fetch. keeps_walk. Qed.

Lemma keeps_dirs_download_hf_model E repo_url model_name extract_path :
  keeps_dirs (download_hf_model E repo_url model_name extract_path).
Proof. unfold download_hf_model. keeps_walk. Qed.

Lemma keeps_dirs_download_and_extract E url extract_path :
  keeps_dirs (download_and_extract E url extract_path).
Proof. unfold download_and_extract. keeps_walk. Qed.

Lemma keeps_dirs_optimize_model E model_dir model_name output_name :
  keeps_dirs (optimize_model E model_dir model_name output_name).
Proof. unfold optimize_model, model_files. simpl. keeps_walk. Qed.

Lemma keeps_dirs_process_model E item : keeps_dirs (process_model E item).
Proof.
  unfold process_model, obtain_model. destruct item as [model_type config].
  keeps_walk;
    auto using keeps_dirs_download_hf_model, keeps_dirs_download_and_extract,
      keeps_dirs_optimize_model.
Qed.

Lemma keeps_dirs_main_loop E models : keeps_dirs (main_loop E models).
Proof. apply keeps_dirs_for_each, keeps_dirs_process_model. Qed.

Lemma keeps_dirs_download_ppocr_dict E : keeps_dirs (download_ppocr_dict E).
Proof. unfold download_ppocr_dict. keeps_walk. Qed.

(** ** The configuration table *)

(** C4: for every value of the version and of the source flag, hence for
    v3, v4 and v5 with either backend, the table has the three kinds
    detection, recognition and classifier, and gives each a URL, a name and
    an output file name that are not empty. *)
Theorem MODELS_well_formed (version : string) (use_hf : bool) :
  dict_keys (MODELS version use_hf) = model_kinds /\
  Forall (fun kind => exists c, dict_get kind (MODELS version use_hf) = Some c /\ well_formed c)
         model_kinds.
Proof.
  unfold MODELS.
  destruct (String.eqb version "v5"), (String.eqb version "v4"), use_hf;
    (split; [reflexivity |]);
    repeat constructor; eexists; (split; [reflexivity |]);
    repeat split; discriminate.
Qed.

(** C5, as worded, fails: [v9] is none of the three tags, and with
    [OCR_VERSION=v9] the module body runs to its end as it does for [v3],
    printing the v3 banner, and binds the v3 table. *)
Lemma version_not_validated :
  environ (env_with_version "v9") "OCR_VERSION" = Some "v9" /\
  ("v9" ∉ version_tags) /\
  module_body (env_with_version "v9") empty_world
  = Ret tt
      (log (Print "  Source: Baidu BOS (fastest)")
         (log (Print "Using PP-OCRv3 models (stable, fully compatible with Paddle Lite)")
            empty_world)) /\
  MODELS (OCR_VERSION (env_with_version "v9")) (USE_HUGGINGFACE (env_with_version "v9"))
  = MODELS "v3" false.
Proof.
  split; [reflexivity |]. split; [| split; reflexivity].
  unfold version_tags. intros Hin.
  repeat (apply elem_of_cons in Hin as [Hin | Hin]; [discriminate |]).
  by apply elem_of_nil in Hin.
Qed.

(** C5, amended: the value of the variable, [v3] when it is unset, is
    lower-cased and not validated; the table is the v5 one when that gives
    [v5], the v4 one when it gives [v4], and the v3 one for everything
    else; the module body rejects no value. *)
Theorem version_selection (E : Env) (w : World) :
  MODELS (OCR_VERSION E) (USE_HUGGINGFACE E)
  = MODELS (version_tag (default "v3" (environ E "OCR_VERSION"))) (USE_HUGGINGFACE E)
  /\ version_tag (default "v3" None) = "v3"
  /\ version_tag (default "v3" (environ E "OCR_VERSION")) ∈ version_tags
  /\ exists w', module_body E w = Ret tt w'.
Proof.
  unfold OCR_VERSION, version_tag, module_body, OCR_VERSION, MODELS.
  set (v := Str.lower (default "v3" (environ E "OCR_VERSION"))).
  split; [| split; [reflexivity | split]].
  - destruct (String.eqb_spec v "v5") as [-> | ?]; [reflexivity |].
    destruct (String.eqb_spec v "v4") as [-> | ?]; reflexivity.
  - unfold version_tags.
    destruct (String.eqb v "v5"), (String.eqb v "v4"); set_solver.
  - destruct (String.eqb v "v5"), (String.eqb v "v4"), (USE_HUGGINGFACE E);
      eexists; reflexivity.
Qed.

(** ** [optimize_model] *)

Lemma model_files_chosen model_dir model_name w :
  model_files model_dir model_name w = Ret (chosen_names model_dir model_name w) w.
Proof.
  unfold model_files, chosen_names, bind, os_path_exists, ret. simpl.
  by destruct (path_exists _ w).
Qed.

Lemma optimize_model_missing E model_dir model_name output_name w :
  path_exists (chosen_names model_dir model_name w).1 w = false ->
  optimize_model E model_dir model_name output_name w
  = Ret false (log (Print ("Error: Model file not found: "
                           +:+ (chosen_names model_dir model_name w).1)) w).
Proof.
  intros Habsent. unfold optimize_model.
  rewrite (bind_Ret _ _ _ _ _ (model_files_chosen _ _ _)).
  destruct (chosen_names model_dir model_name w) as [model_file param_file].
  simpl in Habsent. unfold bind, os_path_exists, print, ret. by rewrite Habsent.
Qed.

Lemma optimize_model_present E model_dir model_name output_name w :
  path_exists (chosen_names model_dir model_name w).1 w = true ->
  exists w',
    optimize_model E model_dir model_name output_name w
    = Ret (Z.eqb (run E (files w)
                    (optimizer_cmd (chosen_names model_dir model_name w).1
                                   (chosen_names model_dir model_name w).2
                                   (path_join "optimized_models" output_name))).1 0) w' /\
    exists verdict,
      trace w' = (trace w
                  ++ optimize_prints model_name
                       (chosen_names model_dir model_name w).1
                       (chosen_names model_dir model_name w).2
                       (path_join "optimized_models" output_name)
                  ++ [ System (optimizer_cmd (chosen_names model_dir model_name w).1
                                 (chosen_names model_dir model_name w).2
                                 (path_join "optimized_models" output_name));
                       Print verdict ])%list.
Proof.
  intros Hpresent. unfold optimize_model.
  rewrite (bind_Ret _ _ _ _ _ (model_files_chosen _ _ _)).
  destruct (chosen_names model_dir model_name w) as [model_file param_file].
  simpl in Hpresent. unfold bind, os_path_exists, print, ret, os_system.
  rewrite Hpresent. simpl.
  destruct (Z.eqb _ 0); eexists; (split; [reflexivity |]); eexists; simpl;
    rewrite write_files_trace; simpl; rewrite <- !app_assoc; reflexivity.
Qed.

Lemma optimize_model_returns E model_dir model_name output_name w :
  exists b w', optimize_model E model_dir model_name output_name w = Ret b w'.
Proof.
  destruct (path_exists (chosen_names model_dir model_name w).1 w) eqn:Hex.
  - destruct (optimize_model_present E model_dir model_name output_name w Hex)
      as (w' & Heq & _). eauto.
  - rewrite (optimize_model_missing E _ _ output_name _ Hex). eauto.
Qed.

(** C6: [optimize_model] always returns, and which names it works with is
    decided by [inference.pdmodel] alone.  When that file is in the model
    directory, the messages and the command of the optimizer carry
    [inference.pdmodel] and [inference.pdiparams].  When it is not, they
    carry [{model_name}.pdmodel] and [{model_name}.pdiparams] instead, and
    nothing about the change is printed or raised: with the legacy model
    file there, the first thing printed is the ordinary progress message
    and the optimizer is run; with the legacy model file missing too, the
    one message is the error that names the legacy model file, and
    [False] is returned without a command. *)
Theorem legacy_fallback E model_dir model_name output_name w :
  (exists b w', optimize_model E model_dir model_name output_name w = Ret b w')
  /\ (path_exists (path_join3 model_dir model_name "inference.pdmodel") w = true ->
      exists w' verdict,
        optimize_model E model_dir model_name output_name w
        = Ret (Z.eqb (run E (files w)
                        (optimizer_cmd
                           (path_join3 model_dir model_name "inference.pdmodel")
                           (path_join3 model_dir model_name "inference.pdiparams")
                           (path_join "optimized_models" output_name))).1 0) w' /\
        trace w' = (trace w
                    ++ optimize_prints model_name
                         (path_join3 model_dir model_name "inference.pdmodel")
                         (path_join3 model_dir model_name "inference.pdiparams")
                         (path_join "optimized_models" output_name)
                    ++ [ System (optimizer_cmd
                                   (path_join3 model_dir model_name "inference.pdmodel")
                                   (path_join3 model_dir model_name "inference.pdiparams")
                                   (path_join "optimized_models" output_name));
                         Print verdict ])%list)
  /\ (path_exists (path_join3 model_dir model_name "inference.pdmodel") w = false ->
      path_exists (path_join3 model_dir model_name (model_name +:+ ".pdmodel")) w = true ->
      exists w' verdict,
        optimize_model E model_dir model_name output_name w
        = Ret (Z.eqb (run E (files w)
                        (optimizer_cmd
                           (path_join3 model_dir model_name (model_name +:+ ".pdmodel"))
                           (path_join3 model_dir model_name (model_name +:+ ".pdiparams"))
                           (path_join "optimized_models" output_name))).1 0) w' /\
        trace w' = (trace w
                    ++ optimize_prints model_name
                         (path_join3 model_dir model_name (model_name +:+ ".pdmodel"))
                         (path_join3 model_dir model_name (model_name +:+ ".pdiparams"))
                         (path_join "optimized_models" output_name)
                    ++ [ System (optimizer_cmd
                                   (path_join3 model_dir model_name (model_name +:+ ".pdmodel"))
                                   (path_join3 model_dir model_name (model_name +:+ ".pdiparams"))
                                   (path_join "optimized_models" output_name));
                         Print verdict ])%list)
  /\ (path_exists (path_join3 model_dir model_name "inference.pdmodel") w = false ->
      path_exists (path_join3 model_dir model_name (model_name +:+ ".pdmodel")) w = false ->
      optimize_model E model_dir model_name output_name w
      = Ret false
          (log (Print ("Error: Model file not found: "
                       +:+ path_join3 model_dir model_name (model_name +:+ ".pdmodel")))
             w)).
Proof.
  split; [apply optimize_model_returns |].
  split; [| split].
  - intros Hprimary.
    assert (Hchosen : chosen_names model_dir model_name w
                      = (path_join3 model_dir model_name "inference.pdmodel",
                         path_join3 model_dir model_name "inference.pdiparams"))
      by (unfold chosen_names, primary_names; cbn [fst]; by rewrite Hprimary).
    destruct (optimize_model_present E model_dir model_name output_name w)
      as (w' & Heq & verdict & Htrace).
    { by rewrite Hchosen. }
    rewrite Hchosen in Heq, Htrace. eauto.
  - intros Hprimary Hlegacy.
    assert (Hchosen : chosen_names model_dir model_name w
                      = (path_join3 model_dir model_name (model_name +:+ ".pdmodel"),
                         path_join3 model_dir model_name (model_name +:+ ".pdiparams")))
      by (unfold chosen_names, primary_names; cbn [fst]; by rewrite Hprimary).
    destruct (optimize_model_present E model_dir model_name output_name w)
      as (w' & Heq & verdict & Htrace).
    { by rewrite Hchosen. }
    rewrite Hchosen in Heq, Htrace. eauto.
  - intros Hprimary Hlegacy.
    assert (Hchosen : chosen_names model_dir model_name w
                      = (path_join3 model_dir model_name (model_name +:+ ".pdmodel"),
                         path_join3 model_dir model_name (model_name +:+ ".pdiparams")))
      by (unfold chosen_names, primary_names; cbn [fst]; by rewrite Hprimary).
    assert (Hopt := optimize_model_missing E model_dir model_name output_name w).
    rewrite Hchosen in Hopt. by apply Hopt.
Qed.

(** A call on a model directory with the primary model file, and one on a
    model directory with the legacy model file only. *)
Lemma legacy_fallback_witness :
  (exists w' verdict,
      optimize_model env_all_well "downloads" "det" "ppocr_det" world_no_params
      = Ret (Z.eqb (run env_all_well (files world_no_params)
                      (optimizer_cmd
                         (path_join3 "downloads" "det" "inference.pdmodel")
                         (path_join3 "downloads" "det" "inference.pdiparams")
                         (path_join "optimized_models" "ppocr_det"))).1 0) w' /\
      trace w' = (trace world_no_params
                  ++ optimize_prints "det"
                       (path_join3 "downloads" "det" "inference.pdmodel")
                       (path_join3 "downloads" "det" "inference.pdiparams")
                       (path_join "optimized_models" "ppocr_det")
                  ++ [ System (optimizer_cmd
                                 (path_join3 "downloads" "det" "inference.pdmodel")
                                 (path_join3 "downloads" "det" "inference.pdiparams")
                                 (path_join "optimized_models" "ppocr_det"));
                       Print verdict ])%list)
  /\ (exists w' verdict,
        optimize_model env_all_well "downloads" "det" "ppocr_det" world_legacy_only
        = Ret (Z.eqb (run env_all_well (files world_legacy_only)
                        (optimizer_cmd
                           (path_join3 "downloads" "det" ("det" +:+ ".pdmodel"))
                           (path_join3 "downloads" "det" ("det" +:+ ".pdiparams"))
                           (path_join "optimized_models" "ppocr_det"))).1 0) w' /\
        trace w' = (trace world_legacy_only
                    ++ optimize_prints "det"
                         (path_join3 "downloads" "det" ("det" +:+ ".pdmodel"))
                         (path_join3 "downloads" "det" ("det" +:+ ".pdiparams"))
                         (path_join "optimized_models" "ppocr_det")
                    ++ [ System (optimizer_cmd
                                   (path_join3 "downloads" "det" ("det" +:+ ".pdmodel"))
                                   (path_join3 "downloads" "det" ("det" +:+ ".pdiparams"))
                                   (path_join "optimized_models" "ppocr_det"));
                         Print verdict ])%list)
  /\ optimize_model env_all_well "downloads" "det" "ppocr_det" empty_world
     = Ret false
         (log (Print ("Error: Model file not found: "
                      +:+ path_join3 "downloads" "det" ("det" +:+ ".pdmodel")))
            empty_world).
Proof.
  destruct (legacy_fallback env_all_well "downloads" "det" "ppocr_det" world_no_params)
    as (_ & Hprimary & _ & _).
  destruct (legacy_fallback env_all_well "downloads" "det" "ppocr_det" world_legacy_only)
    as (_ & _ & Hlegacy & _).
  destruct (legacy_fallback env_all_well "downloads" "det" "ppocr_det" empty_world)
    as (_ & _ & _ & Hnone).
  split; [apply Hprimary; vm_compute; reflexivity |].
  split; [apply Hlegacy; vm_compute; reflexivity |].
  apply Hnone; vm_compute; reflexivity.
Defined.

(** C10: only the model file is looked for.  When the model file
    [optimize_model] settled on exists and its parameter file does not, no
    error is printed and nothing is returned early: the optimizer is run,
    on a store in which the parameter file is still missing, with a command
    line that names that file after [--param_file=]; what [optimize_model]
    returns is decided by the status of that command alone. *)
Theorem parameter_file_not_checked E model_dir model_name output_name w :
  path_exists (chosen_names model_dir model_name w).1 w = true ->
  path_exists (chosen_names model_dir model_name w).2 w = false ->
  exists cmd w' verdict,
    cmd = optimizer_cmd (chosen_names model_dir model_name w).1
            (chosen_names model_dir model_name w).2
            (path_join "optimized_models" output_name) /\
    (exists before after,
        cmd = before +:+ "--param_file=" +:+ (chosen_names model_dir model_name w).2
              +:+ after) /\
    files w !! (chosen_names model_dir model_name w).2 = None /\
    optimize_model E model_dir model_name output_name w
    = Ret (Z.eqb (run E (files w) cmd).1 0) w' /\
    trace w' = (trace w
                ++ optimize_prints model_name
                     (chosen_names model_dir model_name w).1
                     (chosen_names model_dir model_name w).2
                     (path_join "optimized_models" output_name)
                ++ [System cmd; Print verdict])%list /\
    commands_of [System cmd; Print verdict] = [cmd].
Proof.
  intros Hmodel Hparam.
  destruct (optimize_model_present E model_dir model_name output_name w Hmodel)
    as (w' & Heq & verdict & Htrace).
  eexists _, w', verdict. split; [reflexivity |].
  split.
  { exists ("paddle_lite_opt --model_file=" +:+ (chosen_names model_dir model_name w).1 +:+ " ").
    eexists. unfold optimizer_cmd. simpl.
    rewrite !string_app_assoc. simpl. reflexivity. }
  split.
  { unfold path_exists in Hparam. apply orb_false_iff in Hparam as [Hfile _].
    apply bool_decide_eq_false in Hfile.
    destruct (files w !! _) eqn:Hlook; [| done]. by destruct Hfile. }
  done.
Qed.

(** A call on a model directory without a parameter file. *)
Lemma parameter_file_not_checked_witness :
  exists cmd w' verdict,
    cmd = optimizer_cmd (chosen_names "downloads" "det" world_no_params).1
            (chosen_names "downloads" "det" world_no_params).2
            (path_join "optimized_models" "ppocr_det") /\
    (exists before after,
        cmd = before +:+ "--param_file="
              +:+ (chosen_names "downloads" "det" world_no_params).2 +:+ after) /\
    files world_no_params !! (chosen_names "downloads" "det" world_no_params).2 = None /\
    optimize_model env_all_well "downloads" "det" "ppocr_det" world_no_params
    = Ret (Z.eqb (run env_all_well (files world_no_params) cmd).1 0) w' /\
    trace w' = (trace world_no_params
                ++ optimize_prints "det"
                     (chosen_names "downloads" "det" world_no_params).1
                     (chosen_names "downloads" "det" world_no_params).2
                     (path_join "optimized_models" "ppocr_det")
                ++ [System cmd; Print verdict])%list /\
    commands_of [System cmd; Print verdict] = [cmd].
Proof.
  apply (parameter_file_not_checked env_all_well "downloads" "det" "ppocr_det"
           world_no_params).
  - vm_compute. reflexivity.
  - vm_compute. reflexivity.
Defined.

(** ** [download_hf_model] *)

Lemma hf_fetch_failure E base_url model_dir filename msg w :
  fetch E (base_url +:+ "/" +:+ filename) = inr msg ->
  hf_fetch E base_url model_dir filename w
  = Raised (URLError msg)
      (log (Print ("  ✗ Failed to download " +:+ filename +:+ ": " +:+ msg))
         (log (Urlretrieve (base_url +:+ "/" +:+ filename) (path_join model_dir filename))
            (log (Print ("  Downloading " +:+ filename +:+ "...")) w))).
Proof.
  intros Hfetch.
  unfold hf_fetch, bind, try_except, urlretrieve, print, raise. simpl.
  rewrite Hfetch. reflexivity.
Qed.

Lemma hf_fetch_success E base_url model_dir filename content w :
  plain_name filename -> model_dir ∈ dirs w ->
  fetch E (base_url +:+ "/" +:+ filename) = inl content ->
  exists w', hf_fetch E base_url model_dir filename w = Ret tt w' /\ dirs w' = dirs w.
Proof.
  intros Hplain Hdir Hfetch.
  unfold hf_fetch, bind, try_except, urlretrieve, print, os_path_getsize.
  cbn [files dirs trace log]. rewrite Hfetch, (path_join_not_empty _ _ Hplain).
  destruct Hplain as [Hf Hname].
  rewrite (can_create_path_join model_dir filename _ Hf Hname) by done.
  cbn [files dirs trace log write_file set_files]. rewrite lookup_insert_eq. eauto.
Qed.

(** The loop over the files stops at the first one that cannot be fetched,
    with the error of that fetch. *)
Lemma hf_loop_failure E base_url model_dir (names : list string) w :
  Forall plain_name names -> model_dir ∈ dirs w ->
  Exists (fun f => exists msg, fetch E (base_url +:+ "/" +:+ f) = inr msg) names ->
  exists f msg w',
    f ∈ names /\
    fetch E (base_url +:+ "/" +:+ f) = inr msg /\
    for_each names (hf_fetch E base_url model_dir) w = Raised (URLError msg) w' /\
    List.last (trace w') (Print EmptyString)
    = Print ("  ✗ Failed to download " +:+ f +:+ ": " +:+ msg).
Proof.
  revert w. induction names as [| f names IH]; intros w Hplain Hdir Hex.
  { by apply Exists_nil in Hex. }
  apply Forall_cons in Hplain as [Hf Hplain].
  destruct (fetch E (base_url +:+ "/" +:+ f)) as [content | msg] eqn:Hfetch.
  - apply Exists_cons in Hex as [[msg Hmsg] | Hex]; [congruence |].
    destruct (hf_fetch_success E base_url model_dir f content w Hf Hdir Hfetch)
      as (w1 & Hw1 & Hdirs).
    destruct (IH w1 Hplain) as (f' & msg & w' & Hin & Hf' & Hrun & Hlast);
      [by rewrite Hdirs | done |].
    exists f', msg, w'. split; [by apply list_elem_of_further |].
    split; [done |]. split; [| done].
    simpl. by rewrite (bind_Ret _ _ _ _ _ Hw1).
  - eexists f, msg, _. split; [apply list_elem_of_here |].
    split; [done |]. split.
    + simpl. unfold bind. rewrite (hf_fetch_failure E _ _ _ _ _ Hfetch). reflexivity.
    + simpl. apply last_last.
Qed.

(** C7: when one of the files [download_hf_model] asks for cannot be
    fetched, the call does not return: the error of a fetch that failed
    leaves it, raised again by the handler after the failure message, the
    last thing printed; nothing stands in for the file. *)
Theorem hf_download_fails_loudly E repo_url model_name extract_path w :
  Exists (fetch_fails E repo_url) hf_files ->
  exists f msg w',
    f ∈ hf_files /\
    fetch E (hf_url repo_url f) = inr msg /\
    download_hf_model E repo_url model_name extract_path w = Raised (URLError msg) w' /\
    List.last (trace w') (Print EmptyString)
    = Print ("  ✗ Failed to download " +:+ f +:+ ": " +:+ msg).
Proof.
  intros Hex. unfold download_hf_model.
  unfold bind at 1. unfold print at 1. unfold bind at 1. unfold os_makedirs at 1.
  set (w1 := set_dirs _ _).
  destruct (hf_loop_failure E (repo_url +:+ "/resolve/main")
              (path_join extract_path model_name) hf_files w1)
    as (f & msg & w' & Hin & Hfetch & Hrun & Hlast).
  { by repeat constructor. }
  { subst w1. simpl. set_solver. }
  { exact Hex. }
  exists f, msg, w'. repeat split; try done.
  unfold bind. by rewrite Hrun.
Qed.

(** A call without a network: the first file already fails. *)
Lemma hf_download_fails_loudly_witness :
  exists f msg w',
    f ∈ hf_files /\
    fetch env_offline (hf_url "https://huggingface.co/PaddlePaddle/PP-OCRv5_mobile_det" f)
    = inr msg /\
    download_hf_model env_offline "https://huggingface.co/PaddlePaddle/PP-OCRv5_mobile_det"
      "PP-OCRv5_mobile_det" "downloads" empty_world = Raised (URLError msg) w' /\
    List.last (trace w') (Print EmptyString)
    = Print ("  ✗ Failed to download " +:+ f +:+ ": " +:+ msg).
Proof.
  apply (hf_download_fails_loudly env_offline
           "https://huggingface.co/PaddlePaddle/PP-OCRv5_mobile_det"
           "PP-OCRv5_mobile_det" "downloads" empty_world).
  apply Exists_cons_hd. exists "offline". reflexivity.
Defined.

(** ** [download_and_extract] *)

Lemma plain_path_relative p : plain_path p = true -> relative p.
Proof.
  unfold relative, Str.starts_with, plain_path. destruct p as [| c p]; [done |].
  cbn [Str.strip_prefix Str.split]. rewrite (Ascii.eqb_sym "/" c).
  destruct (Ascii.eqb c "/"); [| done].
  cbn [forallb plain_segment]. done.
Qed.

Lemma extract_all_other dest members p w :
  p ∉ (fun m : string * entry => path_join dest m.1) <$> members ->
  files (extract_all dest members w) !! p = files w !! p.
Proof.
  revert w. induction members as [| m members IH]; intros w Hp; [done |].
  rewrite fmap_cons in Hp. apply not_elem_of_cons in Hp as [Hne Hp].
  rewrite extract_all_cons, (IH _ Hp). unfold extract_entry.
  destruct m.2 as [content |]; simpl; [| done]. by rewrite lookup_insert_ne.
Qed.

(** Members that go to different paths are all in the store after the
    extraction, the files with their contents. *)
Lemma extract_all_unpacked dest members w :
  NoDup ((fun m : string * entry => path_join dest m.1) <$> members) ->
  Forall (unpacked dest (extract_all dest members w)) members.
Proof.
  revert w. induction members as [| m members IH]; intros w Hnodup; [constructor |].
  rewrite fmap_cons in Hnodup. apply NoDup_cons in Hnodup as [Hfresh Hnodup].
  rewrite extract_all_cons. constructor; [| by apply IH].
  unfold unpacked. destruct m.2 as [content |] eqn:Hentry.
  - rewrite (extract_all_other _ _ _ _ Hfresh). unfold extract_entry.
    rewrite Hentry. simpl. apply lookup_insert_eq.
  - apply (extract_all_dirs dest members). unfold extract_entry.
    rewrite Hentry. simpl. set_solver.
Qed.

Lemma well_formed_archive_paths dest archive members :
  well_formed_archive dest archive members = true ->
  NoDup ((fun m : string * entry => path_join dest m.1) <$> members) /\
  Forall (fun m => path_join dest m.1 <> archive) members.
Proof.
  unfold well_formed_archive. rewrite !andb_true_iff, bool_decide_eq_true.
  intros [[Hnames Hplain] _].
  assert (Hall : forall m, m ∈ members ->
                   plain_path (path_join dest m.1) = true /\
                   within archive (path_join dest m.1) = false).
  { intros m Hm. apply list_elem_of_In in Hm.
    apply (proj1 (forallb_forall _ _) Hplain) in Hm.
    apply andb_true_iff in Hm as [? Hout]. split; [done |].
    by apply negb_true_iff in Hout. }
  split.
  - assert (Hrel : forall n, n ∈ members.*1 -> relative n).
    { intros n Hn. apply list_elem_of_fmap in Hn as (m & -> & Hm).
      destruct (Hall m Hm) as [Hplain' _].
      destruct (Str.starts_with "/" m.1) eqn:Habs; [| done].
      apply plain_path_relative in Hplain'. unfold path_join in Hplain'.
      rewrite Habs in Hplain'. unfold relative in Hplain'. congruence. }
    change ((fun m : string * entry => path_join dest m.1) <$> members)
      with (path_join dest ∘ fst <$> members).
    rewrite (list_fmap_compose fst (path_join dest) members).
    apply NoDup_fmap_2_strong; [| done].
    intros n1 n2 Hn1 Hn2. apply path_join_inj; auto.
  - apply Forall_forall. intros m Hm Heq. destruct (Hall m Hm) as [_ Hout].
    unfold within in Hout. apply orb_false_iff in Hout as [Hout _].
    rewrite Heq, String.eqb_refl in Hout. done.
Qed.

(** C8: when [download_and_extract] returns, the archive was served and
    read, and the archive file, removed after the extraction, is no longer
    a file of the store.  What was unpacked is there: for an archive whose
    members can all be unpacked under the destination, every file member
    is in the store at its path below the destination with its contents,
    and every directory member is a directory of the store. *)
Theorem archive_removed E url extract_path w w' :
  download_and_extract E url extract_path w = Ret tt w' ->
  exists bytes members,
    fetch E url = inl bytes /\
    tar_members E bytes = Some members /\
    files w' !! archive_name url = None /\
    (well_formed_archive extract_path (archive_name url) members = true ->
     Forall (unpacked extract_path w') members).
Proof.
  unfold download_and_extract, bind, print, urlretrieve, tar_extractall, os_remove.
  cbn [files dirs trace log].
  destruct (fetch E url) as [bytes | msg] eqn:Hfetch; [| done].
  destruct (String.eqb (archive_name url) EmptyString) eqn:Hname; [done |].
  destruct (can_create (archive_name url) _); [| done].
  cbn [files dirs trace log write_file set_files]. rewrite lookup_insert_eq.
  destruct (tar_members E bytes) as [members |] eqn:Htar; [| done].
  match goal with |- context [files (extract_all _ _ ?w0) !! archive_name url] =>
    set (start := w0) in *
  end.
  destruct (files (extract_all extract_path members start) !! archive_name url)
    as [content |] eqn:Hcontent; [| done].
  intros [= <-]. exists bytes, members.
  split; [done |]. split; [done |].
  cbn [files dirs trace log write_file set_files].
  split; [apply lookup_delete_eq |].
  intros Hwf. apply well_formed_archive_paths in Hwf as [Hnodup Hpaths].
  assert (Hunpacked := extract_all_unpacked extract_path members start Hnodup).
  rewrite Forall_forall in Hunpacked, Hpaths. apply Forall_forall.
  intros m Hm. specialize (Hunpacked m Hm). specialize (Hpaths m Hm).
  unfold unpacked in *. destruct m.2; cbn [files dirs log set_files]; [| done].
  by rewrite lookup_delete_ne.
Qed.

(** A call that returns: the archive of the detection model, which can be
    unpacked under the staging directory. *)
Lemma archive_removed_witness :
  exists bytes members,
    fetch env_all_well det_url = inl bytes /\
    tar_members env_all_well bytes = Some members /\
    files world_after_extract !! archive_name det_url = None /\
    well_formed_archive "downloads" (archive_name det_url) members = true /\
    Forall (unpacked "downloads" world_after_extract) members.
Proof.
  destruct (archive_removed env_all_well det_url "downloads" empty_world
              world_after_extract) as (bytes & members & Hfetch & Htar & Hgone & Hunpacked).
  { vm_compute. reflexivity. }
  exists bytes, members. injection Htar as <-.
  assert (Hwf : well_formed_archive "downloads" (archive_name det_url)
                  [ ("ch_PP-OCRv3_det_infer", TDir);
                    ("ch_PP-OCRv3_det_infer/inference.pdmodel", TFile "graph");
                    ("ch_PP-OCRv3_det_infer/inference.pdiparams", TFile "weights");
                    ("ch_PP-OCRv3_rec_infer/inference.pdmodel", TFile "graph");
                    ("ch_PP-OCRv3_rec_infer/inference.pdiparams", TFile "weights");
                    ("ch_ppocr_mobile_v2.0_cls_infer/inference.pdmodel", TFile "graph");
                    ("ch_ppocr_mobile_v2.0_cls_infer/inference.pdiparams", TFile "weights") ]
                = true) by (vm_compute; reflexivity).
  repeat split; try done. by apply Hunpacked.
Defined.

(** ** [download_ppocr_dict] *)

Lemma fallback_chars_alnum (c : ascii) :
  c ∈ Str.chars fallback_chars <-> is_alnum c = true.
Proof.
  assert (H : bool_decide (c ∈ Str.chars fallback_chars) = is_alnum c)
    by (destruct c as [[] [] [] [] [] [] [] []]; vm_compute; reflexivity).
  rewrite <- H. symmetry. apply bool_decide_eq_true.
Qed.

Lemma download_ppocr_dict_returns E w :
  "optimized_models" ∈ dirs w ->
  exists w', download_ppocr_dict E w = Ret tt w'.
Proof.
  intros Hdir.
  unfold download_ppocr_dict, bind, try_except, urlretrieve, print, write_lines.
  cbn [files dirs trace log]. change (String.eqb dict_file EmptyString) with false.
  destruct (fetch E dict_url); cbn iota;
    rewrite can_create_dict_file by done; eauto.
Qed.

(** C3: in a world where the output directory exists, as it does when
    [main] calls [download_ppocr_dict], and where the dictionary's path is
    not taken by a directory: when the fetch of the dictionary raises,
    whatever the error, [download_ppocr_dict] returns normally; the
    dictionary file then holds the fallback: its lines are single
    characters, 62 of them, all different, and they are exactly the 26
    lower-case letters, the 26 upper-case letters and the 10 digits. *)
Theorem dictionary_fallback E w msg :
  "optimized_models" ∈ dirs w ->
  dict_file ∉ dirs w ->
  fetch E dict_url = inr msg ->
  exists w' content,
    download_ppocr_dict E w = Ret tt w' /\
    files w' !! dict_file = Some content /\
    Str.split Str.newline content
    = (map one_char (Str.chars fallback_chars) ++ [EmptyString])%list /\
    List.length (Str.chars fallback_chars) = 62%nat /\
    NoDup (Str.chars fallback_chars) /\
    (forall c, c ∈ Str.chars fallback_chars <-> is_alnum c = true) /\
    List.length (filter (fun c => is_lower c = true) (Str.chars fallback_chars)) = 26%nat /\
    List.length (filter (fun c => is_upper c = true) (Str.chars fallback_chars)) = 26%nat /\
    List.length (filter (fun c => is_digit c = true) (Str.chars fallback_chars)) = 10%nat.
Proof.
  intros Hdir _ Hfetch.
  exists (log (Print ("✓ Basic dictionary created at " +:+ dict_file))
            (write_file dict_file (Str.lines_of_chars fallback_chars)
               (log (Print "Creating basic English dictionary...")
                  (log (Print ("Warning: Could not download dictionary: " +:+ msg))
                     (log (Urlretrieve dict_url dict_file)
                        (log (Print (Str.NL +:+ "Downloading dictionary file...")) w)))))),
    (Str.lines_of_chars fallback_chars).
  split.
  { unfold download_ppocr_dict, bind, try_except, urlretrieve, print, write_lines.
    cbn [files dirs trace log]. rewrite Hfetch. cbn iota.
    by rewrite can_create_dict_file. }
  split; [apply lookup_insert_eq |].
  split; [vm_compute; reflexivity |].
  split; [reflexivity |].
  split; [apply (bool_decide_unpack _); vm_compute; exact I |].
  split; [apply fallback_chars_alnum |].
  repeat split; vm_compute; reflexivity.
Qed.

(** A call without a network. *)
Lemma dictionary_fallback_witness :
  exists w' content,
    download_ppocr_dict env_offline world_with_output_dir = Ret tt w' /\
    files w' !! dict_file = Some content /\
    Str.split Str.newline content
    = (map one_char (Str.chars fallback_chars) ++ [EmptyString])%list /\
    List.length (Str.chars fallback_chars) = 62%nat /\
    NoDup (Str.chars fallback_chars) /\
    (forall c, c ∈ Str.chars fallback_chars <-> is_alnum c = true) /\
    List.length (filter (fun c => is_lower c = true) (Str.chars fallback_chars)) = 26%nat /\
    List.length (filter (fun c => is_upper c = true) (Str.chars fallback_chars)) = 26%nat /\
    List.length (filter (fun c => is_digit c = true) (Str.chars fallback_chars)) = 10%nat.
Proof.
  apply (dictionary_fallback env_offline world_with_output_dir "offline").
  - vm_compute. set_solver.
  - vm_compute. set_solver.
  - reflexivity.
Defined.

(** ** [main] *)

(** C1: when the probe of the optimizer returns a status other than 0, [main]
    ends through [sys.exit(1)]: the process exits with status 1, no file was
    requested from the network and the probe is the only command that was
    run. *)
Theorem probe_failure (E : Env) (w : World) :
  (run E (files w) probe_cmd).1 <> 0 ->
  exists w' new,
    main E w = Exited 1 w' /\
    exit_status (main E w) <> 0 /\
    trace w' = (trace w ++ new)%list /\
    downloads_of new = [] /\
    commands_of new = [probe_cmd].
Proof.
  intros Hprobe.
  unfold main, main_with, main_setup, bind, os_makedirs, print, os_system; simpl.
  destruct (Z.eqb_spec (run E (files w) probe_cmd).1 0) as [Heq | _]; [done |].
  simpl. do 2 eexists. split; [reflexivity |]. split; [done |].
  split; [| split].
  - simpl. rewrite write_files_trace. simpl.
    rewrite <- !app_assoc. simpl. reflexivity.
  - reflexivity.
  - reflexivity.
Qed.

(** A run in an environment without the optimizer. *)
Lemma probe_failure_witness :
  exists w' new,
    main env_no_optimizer empty_world = Exited 1 w' /\
    exit_status (main env_no_optimizer empty_world) <> 0 /\
    trace w' = (trace empty_world ++ new)%list /\
    downloads_of new = [] /\
    commands_of new = [probe_cmd].
Proof. apply (probe_failure env_no_optimizer empty_world). vm_compute. discriminate. Defined.

(** C2: when [main] has come to a model of its table and, after the
    download, the model directory holds neither [inference.pdmodel] nor
    [{model_name}.pdmodel], [optimize_model] returns [False] without running
    any command, and [main] ends there through [sys.exit(1)]: no command is
    run after the download and the exit status is 1. *)
Theorem missing_model_file_aborts E w0 w before item after :
  MODELS (OCR_VERSION E) (USE_HUGGINGFACE E) = (before ++ item :: after)%list ->
  (main_setup E ;; main_loop E before ;; obtain_model E item) w0 = Ret tt w ->
  path_exists (primary_names "downloads" (name item.2)).1 w = false ->
  path_exists (legacy_names "downloads" (name item.2)).1 w = false ->
  exists w1 w2,
    optimize_model E "downloads" (name item.2) (output item.2) w = Ret false w1 /\
    commands_of (trace w1) = commands_of (trace w) /\
    main E w0 = Exited 1 w2 /\
    commands_of (trace w2) = commands_of (trace w) /\
    exit_status (main E w0) <> 0.
Proof.
  intros Htable Hreach Hprimary Hlegacy.
  assert (Hchosen : chosen_names "downloads" (name item.2) w
                    = legacy_names "downloads" (name item.2))
    by (unfold chosen_names; by rewrite Hprimary).
  assert (Hopt := optimize_model_missing E "downloads" (name item.2) (output item.2) w).
  rewrite Hchosen in Hopt. specialize (Hopt Hlegacy).
  apply bind_Ret_inv in Hreach as ([] & ws & Hsetup & Hreach).
  apply bind_Ret_inv in Hreach as ([] & wl & Hloop & Hobtain).
  assert (Hmain : main E w0
                  = Exited 1 (log (Print (Str.NL +:+ "✗ Failed to process " +:+ item.1 +:+ " model"))
                                (log (Print ("Error: Model file not found: "
                                             +:+ (legacy_names "downloads" (name item.2)).1)) w))).
  { unfold main, main_with. rewrite Htable.
    rewrite (bind_Ret _ _ _ _ _ Hsetup).
    unfold main_loop in *. unfold bind at 1. rewrite for_each_app.
    rewrite (bind_Ret _ _ _ _ _ Hloop). simpl for_each.
    unfold bind at 1 2. unfold process_model.
    rewrite (bind_Ret _ _ _ _ _ Hobtain). rewrite (bind_Ret _ _ _ _ _ Hopt).
    reflexivity. }
  do 2 eexists. split; [exact Hopt |]. split.
  { simpl. rewrite commands_of_app. simpl. by rewrite app_nil_r. }
  split; [exact Hmain |]. split.
  { simpl. rewrite !commands_of_app. simpl. by rewrite !app_nil_r. }
  rewrite Hmain. done.
Qed.

(** A run in which the first archive served is empty. *)
Lemma missing_model_file_aborts_witness :
  exists w1 w2,
    optimize_model env_empty_archives "downloads" (name detection_v3.2)
      (output detection_v3.2) world_after_empty_archive = Ret false w1 /\
    commands_of (trace w1) = commands_of (trace world_after_empty_archive) /\
    main env_empty_archives empty_world = Exited 1 w2 /\
    commands_of (trace w2) = commands_of (trace world_after_empty_archive) /\
    exit_status (main env_empty_archives empty_world) <> 0.
Proof.
  apply (missing_model_file_aborts env_empty_archives empty_world
           world_after_empty_archive [] detection_v3 after_detection_v3).
  - vm_compute. reflexivity.
  - vm_compute. reflexivity.
  - vm_compute. reflexivity.
  - vm_compute. reflexivity.
Defined.

Lemma sizes_listed E d listing w :
  (forall f, f ∈ listing -> path_exists (path_join d f) w = true) ->
  exists w',
    for_each listing (fun file =>
      size <- os_path_getsize E (path_join d file) ;;
      print ("  - " +:+ file +:+ " (" +:+ fmt_mb E size +:+ " MB)")) w = Ret tt w' /\
    same_store w' w.
Proof.
  revert w. induction listing as [| f listing IH]; intros w Hall.
  { exists w. by split. }
  assert (Hf : path_exists (path_join d f) w = true) by (apply Hall; left).
  simpl. unfold bind at 1 2. unfold os_path_getsize, print.
  unfold path_exists in Hf.
  destruct (files w !! path_join d f) as [content |] eqn:Hlook.
  - match goal with |- context [for_each _ _ ?w1] =>
      destruct (IH w1) as (w' & Hrun & Hsame)
    end.
    { intros g Hg. unfold path_exists. simpl. apply Hall. by right. }
    exists w'. split; [done |]. destruct Hsame. by split.
  - simpl in Hf. rewrite Hf.
    match goal with |- context [for_each _ _ ?w1] =>
      destruct (IH w1) as (w' & Hrun & Hsame)
    end.
    { intros g Hg. unfold path_exists. simpl. apply Hall. by right. }
    exists w'. split; [done |]. destruct Hsame. by split.
Qed.

Lemma report_returns E w :
  "optimized_models" ∈ dirs w ->
  exists w', report E w = Ret tt w' /\ same_store w' w.
Proof.
  intros Hdir. unfold report.
  repeat (unfold bind at 1; unfold print at 1).
  unfold bind at 1. unfold os_listdir. simpl.
  rewrite bool_decide_eq_true_2 by done.
  match goal with |- context [for_each ?l _ ?w1] =>
    destruct (sizes_listed E "optimized_models" l w1) as (w' & Hrun & Hsame)
  end.
  { intros f Hf. by apply (listed_exists "optimized_models"). }
  exists w'. split; [done |]. destruct Hsame. by split.
Qed.

Lemma main_setup_dirs E w ws :
  main_setup E w = Ret tt ws ->
  "downloads" ∈ dirs ws /\ "optimized_models" ∈ dirs ws.
Proof.
  unfold main_setup, bind, os_makedirs, print, os_system. simpl.
  destruct (negb _); simpl; [done |]. intros [= <-]. simpl.
  rewrite write_files_dirs. simpl. set_solver.
Qed.



(** * Further properties *)

(** ** More on [download_hf_model] *)

Lemma hf_fetch_run E base_url model_dir filename content w :
  plain_name filename -> model_dir ∈ dirs w ->
  fetch E (base_url +:+ "/" +:+ filename) = inl content ->
  hf_fetch E base_url model_dir filename w
  = Ret tt
      (log (Print ("  ✓ Downloaded " +:+ filename +:+ " ("
                   +:+ fmt_mb E (String.length content) +:+ " MB)"))
         (write_file (path_join model_dir filename) content
            (log (Urlretrieve (base_url +:+ "/" +:+ filename) (path_join model_dir filename))
               (log (Print ("  Downloading " +:+ filename +:+ "...")) w)))).
Proof.
  intros Hplain Hdir Hfetch.
  unfold hf_fetch, bind, try_except, urlretrieve, print, os_path_getsize.
  cbn [files dirs trace log]. rewrite Hfetch, (path_join_not_empty _ _ Hplain).
  destruct Hplain as [Hf Hname].
  rewrite (can_create_path_join model_dir filename _ Hf Hname) by done.
  cbn [files dirs trace log write_file set_files]. by rewrite lookup_insert_eq.
Qed.

(** The two files of a repository have plain names, and the model
    directory is there when the loop asks for them. *)
Ltac hf_fetched H :=
  unfold bind at 1;
  rewrite (fun Hplain Hdir => hf_fetch_run _ _ _ _ _ _ Hplain Hdir H);
  [| by split | simpl; set_solver].



(** Runs [download_hf_model] up to its loop. *)
Ltac hf_enter :=
  unfold download_hf_model;
  unfold bind at 1; unfold print at 1; unfold bind at 1; unfold os_makedirs at 1;
  unfold bind at 1; unfold hf_files; simpl for_each.

Lemma hf_download_model_present E repo_url model_name extract_path w params graph :
  fetch E (hf_url repo_url "inference.pdiparams") = inl params ->
  fetch E (hf_url repo_url "inference.json") = inl graph ->
  exists w',
    download_hf_model E repo_url model_name extract_path w = Ret tt w' /\
    path_exists (primary_names extract_path model_name).1 w' = true /\
    path_exists (primary_names extract_path model_name).2 w' = true.
Proof.
  intros Hparams Hgraph. unfold primary_names, path_join3. cbn [fst snd].
  set (model_dir := path_join extract_path model_name).
  assert (Hne1 : path_join model_dir "inference.json"
                 <> path_join model_dir "inference.pdiparams")
    by (intros H; by apply path_join_inj in H).
  assert (Hne2 : path_join model_dir "inference.pdmodel"
                 <> path_join model_dir "inference.pdiparams")
    by (intros H; by apply path_join_inj in H).
  hf_enter. fold model_dir.
  hf_fetched Hparams.
  hf_fetched Hgraph.
  unfold ret at 1. unfold bind at 1. unfold os_path_exists at 1.
  unfold path_exists at 1. cbn [files log write_file set_files set_dirs].
  rewrite lookup_insert_eq.
  rewrite bool_decide_eq_true_2 by eauto. cbn [orb].
  unfold bind, shutil_copy2, print.
  cbn [files log write_file set_files set_dirs]. rewrite lookup_insert_eq.
  eexists. split; [reflexivity |].
  unfold path_exists. cbn [files dirs trace log write_file set_files set_dirs].
  split; apply orb_true_iff; left; apply bool_decide_eq_true.
  - rewrite lookup_insert_eq. eauto.
  - rewrite !lookup_insert_ne by done. rewrite lookup_insert_eq. eauto.
Qed.

(** X2: a model fetched file by file from a repository is then optimised
    under the primary names: after a successful [download_hf_model] both
    [inference.pdmodel] and [inference.pdiparams] exist, and
    [optimize_model] on the same directory runs the optimizer on these two
    files, never the legacy ones, and returns whether its status was 0. *)
Theorem hf_download_then_optimize E repo_url model_name output_name w params graph :
  fetch E (hf_url repo_url "inference.pdiparams") = inl params ->
  fetch E (hf_url repo_url "inference.json") = inl graph ->
  exists w1 w2 cmd verdict,
    download_hf_model E repo_url model_name "downloads" w = Ret tt w1 /\
    path_exists (primary_names "downloads" model_name).1 w1 = true /\
    path_exists (primary_names "downloads" model_name).2 w1 = true /\
    cmd = optimizer_cmd (primary_names "downloads" model_name).1
            (primary_names "downloads" model_name).2
            (path_join "optimized_models" output_name) /\
    optimize_model E "downloads" model_name output_name w1
    = Ret (Z.eqb (run E (files w1) cmd).1 0) w2 /\
    trace w2 = (trace w1
                ++ optimize_prints model_name
                     (primary_names "downloads" model_name).1
                     (primary_names "downloads" model_name).2
                     (path_join "optimized_models" output_name)
                ++ [System cmd; Print verdict])%list.
Proof.
  intros Hparams Hgraph.
  destruct (hf_download_model_present E repo_url model_name "downloads" w params graph
              Hparams Hgraph) as (w1 & Hrun & Hmodel & Hparam).
  assert (Hchosen : chosen_names "downloads" model_name w1
                    = primary_names "downloads" model_name)
    by (unfold chosen_names; by rewrite Hmodel).
  destruct (optimize_model_present E "downloads" model_name output_name w1)
    as (w2 & Hopt & verdict & Htrace).
  { by rewrite Hchosen. }
  rewrite Hchosen in Hopt, Htrace.
  exists w1, w2. eexists _, verdict. repeat split; try done.
Qed.

(** A repository that serves both files, and the optimizer after it. *)
Lemma hf_download_then_optimize_witness :
  exists w1 w2 cmd verdict,
    download_hf_model env_all_well det_repo "PP-OCRv5_mobile_det" "downloads" empty_world
    = Ret tt w1 /\
    path_exists (primary_names "downloads" "PP-OCRv5_mobile_det").1 w1 = true /\
    path_exists (primary_names "downloads" "PP-OCRv5_mobile_det").2 w1 = true /\
    cmd = optimizer_cmd (primary_names "downloads" "PP-OCRv5_mobile_det").1
            (primary_names "downloads" "PP-OCRv5_mobile_det").2
            (path_join "optimized_models" "ppocr_det_v5") /\
    optimize_model env_all_well "downloads" "PP-OCRv5_mobile_det" "ppocr_det_v5" w1
    = Ret (Z.eqb (run env_all_well (files w1) cmd).1 0) w2 /\
    trace w2 = (trace w1
                ++ optimize_prints "PP-OCRv5_mobile_det"
                     (primary_names "downloads" "PP-OCRv5_mobile_det").1
                     (primary_names "downloads" "PP-OCRv5_mobile_det").2
                     (path_join "optimized_models" "ppocr_det_v5")
                ++ [System cmd; Print verdict])%list.
Proof.
  apply (hf_download_then_optimize env_all_well det_repo "PP-OCRv5_mobile_det"
           "ppocr_det_v5" empty_world "bytes" "bytes"); reflexivity.
Defined.





(** ** More on [optimize_model] *)

(** X5: [optimize_model] returns [True] exactly when the model file it
    settled on exists and the optimizer, run on it, returned 0.  It asks
    nothing from the network, and runs a command, the optimizer on the
    names it settled on, exactly when that model file exists. *)
Theorem optimize_model_verdict E model_dir model_name output_name w :
  exists b w' new,
    optimize_model E model_dir model_name output_name w = Ret b w' /\
    (b = true <->
       path_exists (chosen_names model_dir model_name w).1 w = true /\
       (run E (files w)
          (optimizer_cmd (chosen_names model_dir model_name w).1
             (chosen_names model_dir model_name w).2
             (path_join "optimized_models" output_name))).1 = 0) /\
    trace w' = (trace w ++ new)%list /\
    downloads_of new = [] /\
    commands_of new
    = if path_exists (chosen_names model_dir model_name w).1 w
      then [optimizer_cmd (chosen_names model_dir model_name w).1
              (chosen_names model_dir model_name w).2
              (path_join "optimized_models" output_name)]
      else [].
Proof.
  destruct (path_exists (chosen_names model_dir model_name w).1 w) eqn:Hex.
  - destruct (optimize_model_present E model_dir model_name output_name w Hex)
      as (w' & Heq & verdict & Htrace).
    eexists _, w', _. split; [exact Heq |]. split.
    { rewrite Z.eqb_eq. tauto. }
    split; [exact Htrace |]. split; reflexivity.
  - rewrite (optimize_model_missing E _ _ output_name _ Hex).
    eexists _, _, _. split; [reflexivity |]. split.
    { split; [done | intros [? _]; done]. }
    split; [reflexivity |]. split; reflexivity.
Qed.

(** ** More on [download_and_extract] *)

Lemma archive_name_usable url :
  names_file (archive_name url) = true ->
  String.eqb (archive_name url) EmptyString = false /\
  forall w, can_create (archive_name url) w = true.
Proof.
  intros Hname. split.
  - rewrite (names_file_no_slash _ (archive_name_no_slash url)) in Hname.
    apply negb_true_iff, orb_false_iff in Hname as [Hname _].
    by apply orb_false_iff in Hname as [Hname _].
  - intros w. by apply can_create_here; [apply archive_name_no_slash |].
Qed.

(** X6: for an address whose last segment can name a file, and with no
    directory of that name in the way: when what was served is no tar
    archive, [download_and_extract] ends with the error of [tarfile];
    nothing has been extracted and the file it downloaded is left where it
    was written, under the last segment of the address, holding what was
    served. *)
Theorem unreadable_archive_left_behind E url extract_path w bytes :
  names_file (archive_name url) = true ->
  archive_name url ∉ dirs w ->
  fetch E url = inl bytes ->
  tar_members E bytes = None ->
  exists w',
    download_and_extract E url extract_path w = Raised (ReadError (archive_name url)) w' /\
    files w' = <[archive_name url := bytes]> (files w) /\
    dirs w' = dirs w.
Proof.
  intros Hname _ Hfetch Htar.
  destruct (archive_name_usable url Hname) as [Hnonempty Hcreate].
  unfold download_and_extract, bind, print, urlretrieve, tar_extractall.
  cbn [files dirs trace log]. rewrite Hfetch, Hnonempty, Hcreate.
  cbn [files dirs trace log write_file set_files]. rewrite lookup_insert_eq, Htar.
  eexists. split; [reflexivity |]. by split.
Qed.

(** An address that serves what is no archive. *)
Lemma unreadable_archive_left_behind_witness :
  exists w',
    download_and_extract env_no_json det_url "downloads" empty_world
    = Raised (ReadError (archive_name det_url)) w' /\
    files w' = <[archive_name det_url := "weights"]> (files empty_world) /\
    dirs w' = dirs empty_world.
Proof.
  apply (unreadable_archive_left_behind env_no_json det_url "downloads" empty_world
           "weights"); [reflexivity | vm_compute; set_solver | reflexivity | reflexivity].
Defined.

(** X7: the name [download_and_extract] computes for the archive, the same
    for every destination, holds no slash; it is the end of the address,
    and what comes before it is empty or ends with a slash. *)
Theorem archive_name_last_segment url :
  ("/"%char ∉ Str.chars (archive_name url)) /\
  exists before,
    url = before +:+ archive_name url /\
    (before = EmptyString \/ exists dir, before = dir +:+ "/").
Proof.
  unfold archive_name.
  destruct (split_last "/"%char url) as [Hno (before & Heq & Hbefore)].
  split; [exact Hno |]. exists before. by split.
Qed.

(** X8: for an address that ends with a slash and a name without slashes,
    the archive is saved under that name; for an address that ends with a
    slash, under the empty name. *)
Theorem archive_name_of_address dir file :
  "/"%char ∉ Str.chars file ->
  archive_name (dir +:+ "/" +:+ file) = file /\
  archive_name (dir +:+ "/") = EmptyString.
Proof.
  intros Hno. split.
  - by apply split_last_app.
  - apply (split_last_app "/" dir EmptyString). apply not_elem_of_nil.
Qed.

(** The archive of the detection model of the default table. *)
Lemma archive_name_of_address_witness :
  archive_name ("https://paddleocr.bj.bcebos.com/PP-OCRv3/chinese" +:+ "/"
                +:+ "ch_PP-OCRv3_det_infer.tar") = "ch_PP-OCRv3_det_infer.tar" /\
  archive_name ("https://paddleocr.bj.bcebos.com/PP-OCRv3/chinese" +:+ "/") = EmptyString.
Proof.
  apply (archive_name_of_address "https://paddleocr.bj.bcebos.com/PP-OCRv3/chinese"
           "ch_PP-OCRv3_det_infer.tar").
  apply (bool_decide_unpack _). vm_compute. exact I.
Defined.

(** ** More on [download_ppocr_dict] *)

(** X9: in a world where the output directory exists and the dictionary's
    path is not taken by a directory, [download_ppocr_dict] returns whatever
    the network does.  It asks for the dictionary once; afterwards the
    dictionary file holds what was served, or the fallback alphabet when
    nothing was; no other file and no directory of the store changes. *)
Theorem dictionary_always_written E w :
  "optimized_models" ∈ dirs w ->
  dict_file ∉ dirs w ->
  exists w' new,
    download_ppocr_dict E w = Ret tt w' /\
    files w' !! dict_file
    = Some (match fetch E dict_url with
            | inl served => served
            | inr _ => Str.lines_of_chars fallback_chars
            end) /\
    (forall p, p <> dict_file -> files w' !! p = files w !! p) /\
    dirs w' = dirs w /\
    trace w' = (trace w ++ new)%list /\
    downloads_of new = [(dict_url, dict_file)] /\
    commands_of new = [].
Proof.
  intros Hdir _.
  unfold download_ppocr_dict, bind, try_except, urlretrieve, print, write_lines.
  cbn [files dirs trace log write_file set_files].
  change (String.eqb dict_file EmptyString) with false.
  destruct (fetch E dict_url) as [served | msg]; cbn iota;
    rewrite can_create_dict_file by done; do 2 eexists;
    (split; [reflexivity |]);
    cbn [files dirs trace log write_file set_files];
    (split; [apply lookup_insert_eq |]);
    (split; [intros p Hp; by rewrite lookup_insert_ne |]);
    (split; [reflexivity |]);
    (split; [rewrite <- !app_assoc; reflexivity |]);
    split; reflexivity.
Qed.

(** A call in the world [main] sets up, with a network that serves. *)
Lemma dictionary_always_written_witness :
  exists w' new,
    download_ppocr_dict env_all_well world_with_output_dir = Ret tt w' /\
    files w' !! dict_file
    = Some (match fetch env_all_well dict_url with
            | inl served => served
            | inr _ => Str.lines_of_chars fallback_chars
            end) /\
    (forall p, p <> dict_file -> files w' !! p = files world_with_output_dir !! p) /\
    dirs w' = dirs world_with_output_dir /\
    trace w' = (trace world_with_output_dir ++ new)%list /\
    downloads_of new = [(dict_url, dict_file)] /\
    commands_of new = [].
Proof.
  apply (dictionary_always_written env_all_well world_with_output_dir).
  - vm_compute. set_solver.
  - vm_compute. set_solver.
Defined.

(** ** What holds along every run *)

Section Respects.

Context (R : relation World) `{!PreOrder R}.

Lemma respects_ret {A} (a : A) : respects R (ret a).
Proof. intros w. simpl. reflexivity. Qed.

Lemma respects_raise {A} e : respects R (@raise A e).
Proof. intros w. simpl. reflexivity. Qed.

Lemma respects_sys_exit {A} c : respects R (@sys_exit A c).
Proof. intros w. simpl. reflexivity. Qed.

Lemma respects_bind {A B} (m : M A) (k : A -> M B) :
  respects R m -> (forall a, respects R (k a)) -> respects R (bind m k).
Proof.
  intros Hm Hk w. unfold bind. specialize (Hm w).
  destruct (m w) as [a w1 | e w1 | c w1]; simpl in *; [| done | done].
  etrans; [exact Hm | apply Hk].
Qed.

Lemma respects_try_except {A} (m : M A) (h : exn -> M A) :
  respects R m -> (forall e, respects R (h e)) -> respects R (try_except m h).
Proof.
  intros Hm Hh w. unfold try_except. specialize (Hm w).
  destruct (m w) as [a w1 | e w1 | c w1]; simpl in *; [done | | done].
  etrans; [exact Hm | apply Hh].
Qed.

Lemma respects_for_each {A} (xs : list A) (body : A -> M unit) :
  (forall x, respects R (body x)) -> respects R (for_each xs body).
Proof.
  intros Hbody. induction xs as [| x xs IH]; simpl.
  - apply respects_ret.
  - apply respects_bind; [apply Hbody | intros _; apply IH].
Qed.

End Respects.

#[local] Instance trace_grows_preorder : PreOrder trace_grows.
Proof.
  split.
  - intros w. unfold trace_grows. reflexivity.
  - intros w1 w2 w3. unfold trace_grows. apply transitivity.
Qed.

Lemma extract_all_same_trace dest members w :
  trace (extract_all dest members w) = trace w.
Proof.
  revert w. induction members as [| m members IH]; intros w; [done |].
  rewrite extract_all_cons, IH. unfold extract_entry. by destruct m.2.
Qed.

(** A library call adds to the trace or leaves it. *)
Ltac trace_call f :=
  intros w; unfold trace_grows, f; repeat case_match;
  cbn [outcome_world trace log write_file set_files set_dirs];
  rewrite ?write_files_trace, ?extract_all_same_trace;
  cbn [outcome_world trace log write_file set_files set_dirs];
  first [reflexivity | by apply prefix_app_r].

Lemma grows_print line : respects trace_grows (print line).
Proof. trace_call print. Qed.

Lemma grows_os_path_exists p : respects trace_grows (os_path_exists p).
Proof. trace_call os_path_exists. Qed.

Lemma grows_os_makedirs p : respects trace_grows (os_makedirs p).
Proof. trace_call os_makedirs. Qed.

Lemma grows_urlretrieve E u d : respects trace_grows (urlretrieve E u d).
Proof. trace_call urlretrieve. Qed.

Lemma grows_os_path_getsize E p : respects trace_grows (os_path_getsize E p).
Proof. trace_call os_path_getsize. Qed.

Lemma grows_shutil_copy2 a b : respects trace_grows (shutil_copy2 a b).
Proof. trace_call shutil_copy2. Qed.

Lemma grows_os_remove p : respects trace_grows (os_remove p).
Proof. trace_call os_remove. Qed.

Lemma grows_tar_extractall E f d : respects trace_grows (tar_extractall E f d).
Proof. trace_call tar_extractall. Qed.

Lemma grows_os_system E cmd : respects trace_grows (os_system E cmd).
Proof. trace_call os_system. Qed.

Lemma grows_write_lines p chars : respects trace_grows (write_lines p chars).
Proof. trace_call write_lines. Qed.

Lemma grows_shutil_rmtree d : respects trace_grows (shutil_rmtree d).
Proof. trace_call shutil_rmtree. Qed.

Lemma grows_os_listdir d : respects trace_grows (os_listdir d).
Proof. trace_call os_listdir. Qed.

Create HintDb grows discriminated.

#[local] Hint Resolve grows_print grows_os_path_exists grows_os_makedirs
  grows_urlretrieve grows_os_path_getsize grows_shutil_copy2 grows_os_remove
  grows_tar_extractall grows_os_system grows_write_lines grows_shutil_rmtree
  grows_os_listdir : grows.

Ltac grows_step :=
  first
    [ solve [auto with grows]
    | apply (respects_bind trace_grows); [| intros ?]
    | apply (respects_try_except trace_grows); [| intros ?]
    | apply (respects_for_each trace_grows); intros ?
    | apply (respects_ret trace_grows)
    | apply (respects_raise trace_grows)
    | apply (respects_sys_exit trace_grows)
    | match goal with
      | |- respects _ (if ?b then _ else _) => destruct b
      | |- respects _ (let '(_, _) := ?p in _) => destruct p
      end ].

Ltac grows_walk := repeat grows_step.

Lemma grows_process_model E item : respects trace_grows (process_model E item).
Proof.
  unfold process_model, obtain_model. destruct item as [model_type config].
  unfold download_hf_model, download_and_extract, optimize_model, model_files.
  simpl. grows_walk.
Qed.

#[local] Hint Resolve grows_process_model : grows.

Lemma grows_after_setup E models :
  respects trace_grows
    (main_loop E models ;;
     download_ppocr_dict E ;;
     print (Str.NL +:+ "Cleaning up temporary files...") ;;
     shutil_rmtree "downloads" ;;
     report E).
Proof.
  unfold main_loop, download_ppocr_dict, report. grows_walk.
Qed.

(** ** More on [main] *)

(** The two ways [main_setup] ends. *)
Lemma main_setup_outcome E w :
  exists ws,
    "downloads" ∈ dirs ws /\
    "optimized_models" ∈ dirs ws /\
    ((main_setup E w = Ret tt ws /\
      (run E (files w) probe_cmd).1 = 0 /\
      trace ws = (trace w ++ main_opening E)%list)
     \/
     (main_setup E w = Exited 1 ws /\
      (run E (files w) probe_cmd).1 <> 0 /\
      exists said, trace ws = (trace w ++ main_opening E ++ said)%list)).
Proof.
  unfold main_setup, bind, os_makedirs, print, os_system, sys_exit, ret.
  cbn [files dirs trace log write_file set_files set_dirs fst snd].
  destruct (Z.eqb_spec (run E (files w) probe_cmd).1 0) as [Hzero | Hnonzero];
    cbn [negb]; eexists; (split; [| split]).
  3: { left. split; [reflexivity |]. split; [done |].
       cbn [trace log]. rewrite write_files_trace. cbn [trace log].
       rewrite <- !app_assoc. reflexivity. }
  5: { right. split; [reflexivity |]. split; [done |].
       cbn [trace log]. rewrite write_files_trace. cbn [trace log].
       eexists. rewrite <- !app_assoc. reflexivity. }
  all: cbn [dirs log]; rewrite write_files_dirs; cbn [dirs log set_dirs]; set_solver.
Qed.

(** X10: in a world where [main] can make its two directories, every run
    of [main], however it ends, starts with the title and the probe of the
    optimizer: nothing is asked from the network and no other command is
    run before the probe. *)
Theorem main_probes_first E w :
  fresh_start w ->
  exists version rest,
    trace (outcome_world (main E w))
    = (trace w
       ++ [ Print rule;
            Print ("PP-OCR Model Optimization for Android (" +:+ version +:+ ")");
            Print rule;
            System probe_cmd ]
       ++ rest)%list.
Proof.
  intros _. exists (Str.upper (OCR_VERSION E)).
  destruct (main_setup_outcome E w)
    as (ws & _ & _ & [(Hsetup & _ & Htrace) | (Hsetup & _ & said & Htrace)]).
  - unfold main, main_with. rewrite (bind_Ret _ _ _ _ _ Hsetup).
    destruct (grows_after_setup E (MODELS (OCR_VERSION E) (USE_HUGGINGFACE E)) ws)
      as [rest Hrest].
    exists rest. rewrite Hrest, Htrace. by rewrite <- app_assoc.
  - unfold main, main_with. unfold bind at 1. rewrite Hsetup. simpl.
    by exists said.
Qed.

(** A run without a network. *)
Lemma main_probes_first_witness :
  exists version rest,
    trace (outcome_world (main env_offline empty_world))
    = (trace empty_world
       ++ [ Print rule;
            Print ("PP-OCR Model Optimization for Android (" +:+ version +:+ ")");
            Print rule;
            System probe_cmd ]
       ++ rest)%list.
Proof.
  apply (main_probes_first env_offline empty_world).
  split; [intros p _; apply lookup_empty | apply lookup_empty].
Defined.

Lemma exits_ret code {A} (a : A) : exits_only_with code (ret a).
Proof. intros w c w' H. discriminate. Qed.

Lemma exits_raise code {A} e : exits_only_with code (@raise A e).
Proof. intros w c w' H. discriminate. Qed.

Lemma exits_sys_exit code {A} : exits_only_with code (@sys_exit A code).
Proof. intros w c w' [= <- _]. reflexivity. Qed.

Lemma exits_bind code {A B} (m : M A) (k : A -> M B) :
  exits_only_with code m -> (forall a, exits_only_with code (k a)) ->
  exits_only_with code (bind m k).
Proof.
  intros Hm Hk w c w'. unfold bind. specialize (Hm w).
  destruct (m w) as [a w1 | e w1 | c1 w1]; [apply Hk | done |].
  intros [= <- _]. by eapply Hm.
Qed.

Lemma exits_try_except code {A} (m : M A) (h : exn -> M A) :
  exits_only_with code m -> (forall e, exits_only_with code (h e)) ->
  exits_only_with code (try_except m h).
Proof.
  intros Hm Hh w c w'. unfold try_except. specialize (Hm w).
  destruct (m w) as [a w1 | e w1 | c1 w1]; [done | apply Hh |].
  intros [= <- _]. by eapply Hm.
Qed.

Lemma exits_for_each code {A} (xs : list A) (body : A -> M unit) :
  (forall x, exits_only_with code (body x)) -> exits_only_with code (for_each xs body).
Proof.
  intros Hbody. induction xs as [| x xs IH]; simpl.
  - apply exits_ret.
  - apply exits_bind; [apply Hbody | intros _; apply IH].
Qed.

(** No library call leaves the process. *)
Ltac never_exits f :=
  intros w c w'; unfold f; repeat case_match; discriminate.

Lemma exits_print code line : exits_only_with code (print line).
Proof. never_exits print. Qed.

Lemma exits_os_path_exists code p : exits_only_with code (os_path_exists p).
Proof. never_exits os_path_exists. Qed.

Lemma exits_os_makedirs code p : exits_only_with code (os_makedirs p).
Proof. never_exits os_makedirs. Qed.

Lemma exits_urlretrieve code E u d : exits_only_with code (urlretrieve E u d).
Proof. never_exits urlretrieve. Qed.

Lemma exits_os_path_getsize code E p : exits_only_with code (os_path_getsize E p).
Proof. never_exits os_path_getsize. Qed.

Lemma exits_shutil_copy2 code a b : exits_only_with code (shutil_copy2 a b).
Proof. never_exits shutil_copy2. Qed.

Lemma exits_os_remove code p : exits_only_with code (os_remove p).
Proof. never_exits os_remove. Qed.

Lemma exits_tar_extractall code E f d : exits_only_with code (tar_extractall E f d).
Proof. never_exits tar_extractall. Qed.

Lemma exits_os_system code E cmd : exits_only_with code (os_system E cmd).
Proof. never_exits os_system. Qed.

Lemma exits_write_lines code p chars : exits_only_with code (write_lines p chars).
Proof. never_exits write_lines. Qed.

Lemma exits_shutil_rmtree code d : exits_only_with code (shutil_rmtree d).
Proof. never_exits shutil_rmtree. Qed.

Lemma exits_os_listdir code d : exits_only_with code (os_listdir d).
Proof. never_exits os_listdir. Qed.

Create HintDb exits discriminated.

#[local] Hint Resolve exits_ret exits_raise exits_sys_exit exits_print
  exits_os_path_exists exits_os_makedirs exits_urlretrieve exits_os_path_getsize
  exits_shutil_copy2 exits_os_remove exits_tar_extractall exits_os_system
  exits_write_lines exits_shutil_rmtree exits_os_listdir : exits.

Ltac exits_step :=
  first
    [ solve [auto with exits]
    | apply exits_bind; [| intros ?]
    | apply exits_try_except; [| intros ?]
    | apply exits_for_each; intros ?
    | match goal with
      | |- exits_only_with _ (if ?b then _ else _) => destruct b
      | |- exits_only_with _ (let '(_, _) := ?p in _) => destruct p
      end ].

Ltac exits_walk := repeat exits_step.

Lemma exits_process_model E item : exits_only_with 1 (process_model E item).
Proof.
  unfold process_model, obtain_model. destruct item as [model_type config].
  unfold download_hf_model, download_and_extract, optimize_model, model_files.
  simpl. exits_walk.
Qed.

#[local] Hint Resolve exits_process_model : exits.

Lemma exits_main E : exits_only_with 1 (main E).
Proof.
  unfold main, main_with, main_setup, main_loop, download_ppocr_dict, report.
  exits_walk.
Qed.

(** What follows the loop of [main] runs to its end and empties the staging
    directory. *)
Lemma main_after_loop E models w ws w1 :
  main_setup E w = Ret tt ws ->
  main_loop E models ws = Ret tt w1 ->
  exists w',
    main_with E models w = Ret tt w' /\
    (forall p, within "downloads" p = true -> path_exists p w' = false).
Proof.
  intros Hsetup Hloop.
  destruct (main_setup_dirs E w ws Hsetup) as [Hdown Hout].
  assert (Hkeep1 := keeps_dirs_main_loop E models ws).
  rewrite Hloop in Hkeep1. simpl in Hkeep1.
  destruct (download_ppocr_dict_returns E w1) as [w2 Hdict]; [set_solver |].
  assert (Hkeep2 := keeps_dirs_download_ppocr_dict E w1).
  rewrite Hdict in Hkeep2. simpl in Hkeep2.
  set (w3 := log (Print (Str.NL +:+ "Cleaning up temporary files...")) w2).
  destruct (rmtree_removes "downloads" w3) as (w4 & Hrm & _ & Hgone & Hstay).
  { simpl. set_solver. }
  destruct (report_returns E w4) as (w5 & Hreport & Hfiles & Hdirs).
  { apply Hstay; [reflexivity |]. simpl. set_solver. }
  exists w5. split.
  - unfold main_with.
    rewrite (bind_Ret _ _ _ _ _ Hsetup), (bind_Ret _ _ _ _ _ Hloop),
      (bind_Ret _ _ _ _ _ Hdict).
    unfold bind at 1. unfold print at 1. fold w3.
    by rewrite (bind_Ret _ _ _ _ _ Hrm).
  - intros p Hp. specialize (Hgone p Hp). unfold path_exists in *.
    by rewrite Hfiles, Hdirs.
Qed.

(** X11: in a world where [main] can make its two directories, [main]
    removes the staging directory exactly on the runs that come to their
    end: when [main] returns, ['downloads'] is no directory of the store;
    when it ends through [sys.exit] or an exception, ['downloads'] is still
    there. *)
Theorem staging_removed_only_on_success E w :
  fresh_start w ->
  match main E w with
  | Ret _ w' => "downloads" ∉ dirs w'
  | Raised _ w' | Exited _ w' => "downloads" ∈ dirs w'
  end.
Proof.
  intros _.
  destruct (main_setup_outcome E w)
    as (ws & Hdown & _ & [(Hsetup & _ & _) | (Hsetup & _ & _)]).
  - assert (Hkeep := keeps_dirs_main_loop E (MODELS (OCR_VERSION E) (USE_HUGGINGFACE E)) ws).
    destruct (main_loop E (MODELS (OCR_VERSION E) (USE_HUGGINGFACE E)) ws)
      as [[] w1 | e w1 | c w1] eqn:Hloop; simpl in Hkeep.
    + destruct (main_after_loop E _ w ws w1 Hsetup Hloop) as (w' & Hmain & Hgone).
      unfold main. rewrite Hmain. intros Hin.
      specialize (Hgone "downloads" eq_refl). unfold path_exists in Hgone.
      apply orb_false_iff in Hgone as [_ Hgone].
      by apply bool_decide_eq_false in Hgone.
    + unfold main, main_with. rewrite (bind_Ret _ _ _ _ _ Hsetup).
      unfold bind. rewrite Hloop. set_solver.
    + unfold main, main_with. rewrite (bind_Ret _ _ _ _ _ Hsetup).
      unfold bind. rewrite Hloop. set_solver.
  - unfold main, main_with. unfold bind at 1. by rewrite Hsetup.
Qed.

(** A run without a network, which ends with the error of the first
    download. *)
Lemma staging_removed_only_on_success_witness :
  match main env_offline empty_world with
  | Ret _ w' => "downloads" ∉ dirs w'
  | Raised _ w' | Exited _ w' => "downloads" ∈ dirs w'
  end.
Proof.
  apply (staging_removed_only_on_success env_offline empty_world).
  split; [intros p _; apply lookup_empty | apply lookup_empty].
Defined.

(** X12: the exit status of the script is 0 or 1: 0 exactly when [main]
    returns, 1 when it ends through [sys.exit], which it only calls with 1,
    or through an exception. *)
Theorem exit_status_zero_or_one E w :
  (exit_status (main E w) = 0 \/ exit_status (main E w) = 1) /\
  (exit_status (main E w) = 0 <-> exists w', main E w = Ret tt w').
Proof.
  assert (Hexit := exits_main E w).
  destruct (main E w) as [[] w' | e w' | c w']; simpl.
  - split; [by left |]. split; eauto.
  - split; [by right |]. split; [done | intros [? ?]; done].
  - rewrite (Hexit c w' eq_refl). split; [by right |].
    split; [done | intros [? ?]; done].
Qed.

#[local] Instance commands_kept_preorder : PreOrder commands_kept.
Proof.
  split.
  - intros w. reflexivity.
  - intros w1 w2 w3 H12 H23. unfold commands_kept in *. congruence.
Qed.

(** A library call other than [os.system] runs no command. *)
Ltac quiet_call f :=
  intros w; unfold commands_kept, f; repeat case_match;
  cbn [outcome_world trace log write_file set_files set_dirs];
  rewrite ?extract_all_same_trace;
  cbn [outcome_world trace log write_file set_files set_dirs];
  rewrite ?commands_of_app; cbn [commands_of omap list_omap];
  rewrite ?app_nil_r; reflexivity.

Lemma quiet_print line : respects commands_kept (print line).
Proof. quiet_call print. Qed.

Lemma quiet_os_path_exists p : respects commands_kept (os_path_exists p).
Proof. quiet_call os_path_exists. Qed.

Lemma quiet_os_makedirs p : respects commands_kept (os_makedirs p).
Proof. quiet_call os_makedirs. Qed.

Lemma quiet_urlretrieve E u d : respects commands_kept (urlretrieve E u d).
Proof. quiet_call urlretrieve. Qed.

Lemma quiet_os_path_getsize E p : respects commands_kept (os_path_getsize E p).
Proof. quiet_call os_path_getsize. Qed.

Lemma quiet_shutil_copy2 a b : respects commands_kept (shutil_copy2 a b).
Proof. quiet_call shutil_copy2. Qed.

Lemma quiet_os_remove p : respects commands_kept (os_remove p).
Proof. quiet_call os_remove. Qed.

Lemma quiet_tar_extractall E f d : respects commands_kept (tar_extractall E f d).
Proof. quiet_call tar_extractall. Qed.

Create HintDb quiet discriminated.

#[local] Hint Resolve quiet_print quiet_os_path_exists quiet_os_makedirs
  quiet_urlretrieve quiet_os_path_getsize quiet_shutil_copy2 quiet_os_remove
  quiet_tar_extractall : quiet.

Ltac quiet_step :=
  first
    [ solve [auto with quiet]
    | apply (respects_bind commands_kept); [| intros ?]
    | apply (respects_try_except commands_kept); [| intros ?]
    | apply (respects_for_each commands_kept); intros ?
    | apply (respects_ret commands_kept)
    | apply (respects_raise commands_kept)
    | match goal with
      | |- respects _ (if ?b then _ else _) => destruct b
      | |- respects _ (let '(_, _) := ?p in _) => destruct p
      end ].

(** The download of a model runs no command. *)
Lemma quiet_obtain_model E item : respects commands_kept (obtain_model E item).
Proof.
  unfold obtain_model. destruct item as [model_type config].
  unfold download_hf_model, download_and_extract. repeat quiet_step.
Qed.

(** X13: [process_model] returns only for a model that was optimised: the
    download returned, the model file [optimize_model] settled on was
    there, and the optimizer, run on the names settled on, returned 0;
    that run of the optimizer is the one command of the iteration. *)
Theorem processed_means_optimized E item w w' :
  process_model E item w = Ret tt w' ->
  exists w1 cmd,
    obtain_model E item w = Ret tt w1 /\
    path_exists (chosen_names "downloads" (name item.2) w1).1 w1 = true /\
    cmd = optimizer_cmd (chosen_names "downloads" (name item.2) w1).1
            (chosen_names "downloads" (name item.2) w1).2
            (path_join "optimized_models" (output item.2)) /\
    (run E (files w1) cmd).1 = 0 /\
    commands_of (trace w') = (commands_of (trace w) ++ [cmd])%list.
Proof.
  unfold process_model. intros Hrun.
  apply bind_Ret_inv in Hrun as ([] & w1 & Hobtain & Hrun).
  assert (Hquiet := quiet_obtain_model E item w).
  rewrite Hobtain in Hquiet. unfold commands_kept in Hquiet. simpl in Hquiet.
  apply bind_Ret_inv in Hrun as (success & w2 & Hopt & Hrun).
  exists w1. eexists. split; [exact Hobtain |].
  destruct (path_exists (chosen_names "downloads" (name item.2) w1).1 w1) eqn:Hex.
  - destruct (optimize_model_present E "downloads" (name item.2) (output item.2) w1 Hex)
      as (w2' & Heq & verdict & Htrace).
    rewrite Heq in Hopt. injection Hopt as <- <-.
    destruct (Z.eqb_spec (run E (files w1)
                (optimizer_cmd (chosen_names "downloads" (name item.2) w1).1
                   (chosen_names "downloads" (name item.2) w1).2
                   (path_join "optimized_models" (output item.2)))).1 0)
      as [Hzero | Hnonzero]; [| done].
    injection Hrun as <-. split; [done |]. split; [reflexivity |]. split; [done |].
    rewrite Htrace, !commands_of_app, Hquiet. reflexivity.
  - rewrite (optimize_model_missing E _ _ (output item.2) _ Hex) in Hopt.
    injection Hopt as <- <-. done.
Qed.

(** A run of the loop body in which everything works. *)
Lemma processed_means_optimized_witness :
  exists w1 cmd,
    obtain_model env_all_well detection_v3 empty_world = Ret tt w1 /\
    path_exists (chosen_names "downloads" (name detection_v3.2) w1).1 w1 = true /\
    cmd = optimizer_cmd (chosen_names "downloads" (name detection_v3.2) w1).1
            (chosen_names "downloads" (name detection_v3.2) w1).2
            (path_join "optimized_models" (output detection_v3.2)) /\
    (run env_all_well (files w1) cmd).1 = 0 /\
    commands_of (trace (outcome_world (process_model env_all_well detection_v3 empty_world)))
    = (commands_of (trace empty_world) ++ [cmd])%list.
Proof.
  apply (processed_means_optimized env_all_well detection_v3 empty_world
           (outcome_world (process_model env_all_well detection_v3 empty_world))).
  vm_compute. reflexivity.
Defined.

(** X14: when [main] has come to a model, its model file is there and the
    optimizer returns a status other than 0, [main] ends through
    [sys.exit(1)]: after the download the optimizer is the only command
    run, and nothing more is asked from the network. *)
Theorem optimizer_failure_aborts E w0 w before item after :
  MODELS (OCR_VERSION E) (USE_HUGGINGFACE E) = (before ++ item :: after)%list ->
  (main_setup E ;; main_loop E before ;; obtain_model E item) w0 = Ret tt w ->
  path_exists (chosen_names "downloads" (name item.2) w).1 w = true ->
  (run E (files w)
     (optimizer_cmd (chosen_names "downloads" (name item.2) w).1
        (chosen_names "downloads" (name item.2) w).2
        (path_join "optimized_models" (output item.2)))).1 <> 0 ->
  exists w' new,
    main E w0 = Exited 1 w' /\
    trace w' = (trace w ++ new)%list /\
    downloads_of new = [] /\
    commands_of new
    = [optimizer_cmd (chosen_names "downloads" (name item.2) w).1
         (chosen_names "downloads" (name item.2) w).2
         (path_join "optimized_models" (output item.2))].
Proof.
  intros Htable Hreach Hmodel Hstatus.
  destruct (optimize_model_present E "downloads" (name item.2) (output item.2) w Hmodel)
    as (w1 & Hopt & verdict & Htrace).
  apply Z.eqb_neq in Hstatus. rewrite Hstatus in Hopt.
  apply bind_Ret_inv in Hreach as ([] & ws & Hsetup & Hreach).
  apply bind_Ret_inv in Hreach as ([] & wl & Hloop & Hobtain).
  exists (log (Print (Str.NL +:+ "✗ Failed to process " +:+ item.1 +:+ " model")) w1).
  eexists. split.
  { unfold main, main_with. rewrite Htable.
    rewrite (bind_Ret _ _ _ _ _ Hsetup).
    unfold main_loop in *. unfold bind at 1. rewrite for_each_app.
    rewrite (bind_Ret _ _ _ _ _ Hloop). simpl for_each.
    unfold bind at 1 2. unfold process_model.
    rewrite (bind_Ret _ _ _ _ _ Hobtain). rewrite (bind_Ret _ _ _ _ _ Hopt).
    reflexivity. }
  split.
  { cbn [trace log]. rewrite Htrace, <- !app_assoc. reflexivity. }
  split; reflexivity.
Qed.

(** A run in which the optimizer fails on the first model. *)
Lemma optimizer_failure_aborts_witness :
  exists w' new,
    main env_optimizer_fails empty_world = Exited 1 w' /\
    trace w' = (trace world_before_failed_optimizer ++ new)%list /\
    downloads_of new = [] /\
    commands_of new
    = [optimizer_cmd
         (chosen_names "downloads" (name detection_v3.2) world_before_failed_optimizer).1
         (chosen_names "downloads" (name detection_v3.2) world_before_failed_optimizer).2
         (path_join "optimized_models" (output detection_v3.2))].
Proof.
  apply (optimizer_failure_aborts env_optimizer_fails empty_world
           world_before_failed_optimizer [] detection_v3 after_detection_v3).
  - vm_compute. reflexivity.
  - vm_compute. reflexivity.
  - vm_compute. reflexivity.
  - vm_compute. discriminate.
Defined.

(** X15: [main] has no handler around the downloads.  When it has come to a
    model that is fetched as an archive and the fetch raises, the error
    leaves [main]: nothing else is asked from the network, the dictionary
    included, no command is run, and the exit status is 1. *)
Theorem download_failure_propagates E w0 w before item after msg :
  MODELS (OCR_VERSION E) (USE_HUGGINGFACE E) = (before ++ item :: after)%list ->
  (main_setup E ;; main_loop E before) w0 = Ret tt w ->
  default false (is_hf_repo item.2) = false ->
  fetch E (url item.2) = inr msg ->
  exists w' new,
    main E w0 = Raised (URLError msg) w' /\
    exit_status (main E w0) = 1 /\
    trace w' = (trace w ++ new)%list /\
    downloads_of new = [(url item.2, archive_name (url item.2))] /\
    commands_of new = [].
Proof.
  intros Htable Hreach Harchive Hfetch.
  apply bind_Ret_inv in Hreach as ([] & ws & Hsetup & Hloop).
  assert (Hmain : exists w',
             main E w0 = Raised (URLError msg) w' /\
             exists new, trace w' = (trace w ++ new)%list /\
                         downloads_of new = [(url item.2, archive_name (url item.2))] /\
                         commands_of new = []).
  { unfold main, main_with. rewrite Htable.
    rewrite (bind_Ret _ _ _ _ _ Hsetup).
    unfold main_loop in *. unfold bind at 1. rewrite for_each_app.
    rewrite (bind_Ret _ _ _ _ _ Hloop). simpl for_each.
    unfold bind at 1 2. unfold process_model. unfold bind at 1.
    unfold obtain_model. destruct item as [model_type config]. simpl in *.
    rewrite Harchive.
    unfold download_and_extract, bind, print, urlretrieve. simpl.
    rewrite Hfetch. eexists. split; [reflexivity |].
    eexists. split; [simpl; rewrite <- !app_assoc; reflexivity |].
    split; reflexivity. }
  destruct Hmain as (w' & Hmain & new & Htrace & Hdown & Hcmd).
  exists w', new. rewrite Hmain. done.
Qed.

(** A run without a network: the first archive cannot be fetched. *)
Lemma download_failure_propagates_witness :
  exists w' new,
    main env_offline empty_world = Raised (URLError "offline") w' /\
    exit_status (main env_offline empty_world) = 1 /\
    trace w' = (trace world_after_setup_offline ++ new)%list /\
    downloads_of new = [(url detection_v3.2, archive_name (url detection_v3.2))] /\
    commands_of new = [].
Proof.
  apply (download_failure_propagates env_offline empty_world world_after_setup_offline
           [] detection_v3 after_detection_v3 "offline").
  - vm_compute. reflexivity.
  - vm_compute. reflexivity.
  - reflexivity.
  - reflexivity.
Defined.

(** ** More on the configuration table *)

(** X16: in every table the three kinds are different, the three models
    have different names, and the three output paths handed to the
    optimizer are different. *)
Theorem MODELS_distinct (version : string) (use_hf : bool) :
  NoDup (dict_keys (MODELS version use_hf)) /\
  NoDup (List.map (fun item => name item.2) (MODELS version use_hf)) /\
  NoDup (List.map (fun item => path_join "optimized_models" (output item.2))
           (MODELS version use_hf)).
Proof.
  unfold MODELS.
  destruct (String.eqb version "v5"), (String.eqb version "v4"), use_hf;
    repeat split; apply (bool_decide_unpack _); vm_compute; exact I.
Qed.

(** X17: a model is fetched file by file from a repository only when the
    version is v5 or v4, the source flag is set and the model is not the
    classifier.  The v3 tables have no such entry, with either source, and
    the classifier is in every table the same archive, name and output. *)
Theorem MODELS_sources (version : string) (use_hf : bool) :
  Forall (fun item =>
            default false (is_hf_repo item.2)
            = (use_hf && (String.eqb version "v5" || String.eqb version "v4")
               && negb (String.eqb item.1 "classifier"))%bool)
         (MODELS version use_hf) /\
  exists c, dict_get "classifier" (MODELS version use_hf) = Some c /\
            url c = cls_url /\
            name c = "ch_ppocr_mobile_v2.0_cls_infer" /\
            output c = "ppocr_cls".
Proof.
  unfold MODELS.
  destruct (String.eqb version "v5"), (String.eqb version "v4"), use_hf;
    (split; [repeat constructor | eexists; repeat split; reflexivity]).
Qed.

(** ** Where the model's files cannot be written *)

(** X18: the handler of [download_ppocr_dict] is not protected.  In a world
    without the output directory the call raises the error of the file it
    cannot create, whatever the network does, and no file of the store
    changes. *)
Theorem dictionary_needs_output_dir E w :
  "optimized_models" ∉ dirs w ->
  "optimized_models/" ∉ dirs w ->
  exists w',
    download_ppocr_dict E w = Raised (OSError dict_file) w' /\
    files w' = files w /\
    dirs w' = dirs w.
Proof.
  intros Hdir Hslash.
  assert (Hcreate : forall w0, dirs w0 = dirs w -> can_create dict_file w0 = false).
  { intros w0 Hdirs. unfold can_create, parent_exists.
    change (names_file dict_file) with true.
    change (Str.head_of dict_file) with "optimized_models/".
    change (Str.drop_last "optimized_models/") with "optimized_models".
    rewrite Hdirs, !bool_decide_eq_false_2 by done. reflexivity. }
  unfold download_ppocr_dict, bind, try_except, urlretrieve, print, write_lines.
  cbn [files dirs trace log]. change (String.eqb dict_file EmptyString) with false.
  destruct (fetch E dict_url) as [served | msg]; cbn iota;
    rewrite !Hcreate by reflexivity; eexists; (split; [reflexivity |]); by split.
Qed.

(** A call before any directory was made. *)
Lemma dictionary_needs_output_dir_witness :
  exists w',
    download_ppocr_dict env_all_well empty_world = Raised (OSError dict_file) w' /\
    files w' = files empty_world /\
    dirs w' = dirs empty_world.
Proof.
  apply (dictionary_needs_output_dir env_all_well empty_world);
    apply not_elem_of_empty.
Defined.

(** X19: for an address that ends with a slash the archive has no name.
    When something is served, it goes to a temporary file and
    [download_and_extract] ends with the error of [tarfile.open], which is
    given nothing to open; the store is as it was. *)
Theorem nameless_archive_raises E dir extract_path w bytes :
  fetch E (dir +:+ "/") = inl bytes ->
  exists w' new,
    download_and_extract E (dir +:+ "/") extract_path w
    = Raised (ValueError "nothing to open") w' /\
    files w' = files w /\
    dirs w' = dirs w /\
    trace w' = (trace w ++ new)%list /\
    downloads_of new = [(dir +:+ "/", EmptyString)].
Proof.
  intros Hfetch.
  assert (Hname : archive_name (dir +:+ "/") = EmptyString)
    by (apply (split_last_app "/" dir EmptyString), not_elem_of_nil).
  unfold download_and_extract, bind, print, urlretrieve, tar_extractall.
  cbn [files dirs trace log]. rewrite Hfetch, Hname.
  cbn [files dirs trace log String.eqb]. do 2 eexists.
  split; [reflexivity |]. cbn [files dirs trace log].
  split; [done |]. split; [done |]. split.
  { rewrite <- !app_assoc. reflexivity. }
  reflexivity.
Qed.

(** An address that names a directory. *)
Lemma nameless_archive_raises_witness :
  exists w' new,
    download_and_extract env_all_well ("https://paddleocr.bj.bcebos.com/PP-OCRv3" +:+ "/")
      "downloads" empty_world
    = Raised (ValueError "nothing to open") w' /\
    files w' = files empty_world /\
    dirs w' = dirs empty_world /\
    trace w' = (trace empty_world ++ new)%list /\
    downloads_of new = [("https://paddleocr.bj.bcebos.com/PP-OCRv3" +:+ "/", EmptyString)].
Proof.
  apply (nameless_archive_raises env_all_well "https://paddleocr.bj.bcebos.com/PP-OCRv3"
           "downloads" empty_world "bytes").
  reflexivity.
Defined.
